(** * McCoach: the nutrition calculator and the evaluation metrics

    A shallow embedding of [src/lib/nutrition-calculator.ts] and
    [src/lib/evaluation/metrics.ts], and of the code around them: the
    evaluation run that calls the metrics, [extractNutritionData] of the
    USDA client, and the image validator.

    - JavaScript numbers are IEEE 754 binary64 values: Rocq's primitive
      [float], whose operations the kernel evaluates, so that [0 / 0]
      is [nan] here as it is in the program.
    - Array lengths and the match counter of [calculateMetrics] are small
      non-negative integers, which binary64 represents exactly; they are
      kept in [Z] and injected into [float] where the program divides.
    - A string is a sequence of UTF-16 code units; the development covers
      the code units below 256 (one [ascii] per code unit, Latin-1).
    - A function body that can throw returns a [completion]. *)

From Stdlib Require Import ZArith Floats Ascii String List Bool Lia.
From stdpp Require Import base gmap sets list strings.

#[local] Set Warnings "-inexact-float,-clear-no-such-hyp,-register-all".
#[local] Open Scope float_scope.

(** ** JavaScript numbers *)

Module Js.

(** [ToBoolean] on a number: [+0], [-0] and [NaN] are falsy. *)
Definition truthy (x : float) : bool :=
  negb (PrimFloat.eqb x 0 || PrimFloat.is_nan x).

(** [x || d] on numbers. *)
Definition or_else (x d : float) : float := if truthy x then x else d.

(** An optional number ([number | null | undefined]) used as a condition. *)
Definition truthy_opt (o : option float) : bool :=
  match o with
  | Some x => truthy x
  | None => false
  end.

(** [o || d] where [o] is an optional number. *)
Definition opt_or_else (o : option float) (d : float) : float :=
  match o with
  | Some x => or_else x d
  | None => d
  end.

(** An integer as a number; exact below 2^53 in absolute value. *)
Definition of_Z (z : Z) : float :=
  if (z <? 0)%Z then - PrimFloat.of_uint63 (Uint63.of_Z (- z))
  else PrimFloat.of_uint63 (Uint63.of_Z z).

(** [Math.abs]. *)
Definition Math_abs (x : float) : float := PrimFloat.abs x.

(** [Math.max] of two numbers: [NaN] if either is, and [+0] above [-0]. *)
Definition Math_max (a b : float) : float :=
  if PrimFloat.is_nan a || PrimFloat.is_nan b then nan
  else if PrimFloat.ltb a b then b
  else if PrimFloat.ltb b a then a
  else if PrimFloat.get_sign a then b else a.

(** [Math.round]: the nearest integer, ties towards [+∞]; [-0] for
    [-0.5 <= x < 0]; integers, infinities and [NaN] unchanged.  A finite
    [x] is [±m·2^e]; for [e < 0] the result is [⌊x + 1/2⌋], computed
    exactly in [Z]. *)
Definition Math_round (x : float) : float :=
  match Prim2SF x with
  | S754_finite s m e =>
      if (0 <=? e)%Z then x
      else
        let twice := if s then (- (2 * Z.pos m))%Z else (2 * Z.pos m)%Z in
        let r := ((twice + 2 ^ (- e)) / 2 ^ (1 - e))%Z in
        if (r =? 0)%Z then (if s then (-0) else 0) else of_Z r
  | _ => x
  end.

(** *** Strings *)

(** [WhiteSpace] and [LineTerminator] code units below 256: TAB, LF, VT,
    FF, CR, SP, NBSP.  This is what [trim] strips and what [\s] matches. *)
Definition isWhiteSpace (c : ascii) : bool :=
  let n := nat_of_ascii c in
  ((9 <=? n) && (n <=? 13) || (n =? 32) || (n =? 160))%nat.

(** [toLowerCase] on one code unit: A-Z, À-Ö and Ø-Þ move up by 32. *)
Definition lowerChar (c : ascii) : ascii :=
  let n := nat_of_ascii c in
  if ((65 <=? n) && (n <=? 90) || (192 <=? n) && (n <=? 214)
      || (216 <=? n) && (n <=? 222))%nat
  then ascii_of_nat (n + 32) else c.

Fixpoint toLowerCase (s : string) : string :=
  match s with
  | EmptyString => EmptyString
  | String c t => String (lowerChar c) (toLowerCase t)
  end.

Fixpoint trimStart (s : string) : string :=
  match s with
  | EmptyString => EmptyString
  | String c t => if isWhiteSpace c then trimStart t else s
  end.

Fixpoint trimEnd (s : string) : string :=
  match s with
  | EmptyString => EmptyString
  | String c t =>
      match trimEnd t with
      | EmptyString => if isWhiteSpace c then EmptyString else String c EmptyString
      | t' => String c t'
      end
  end.

Definition trim (s : string) : string := trimEnd (trimStart s).

(** [s.replace(/\s+/g, ' ')]: every maximal run of white space becomes
    one space.  [inRun] says that the previous code unit was white space. *)
Fixpoint replaceRuns (inRun : bool) (s : string) : string :=
  match s with
  | EmptyString => EmptyString
  | String c t =>
      if isWhiteSpace c
      then (if inRun then replaceRuns true t
            else String " "%char (replaceRuns true t))
      else String c (replaceRuns false t)
  end.

Definition collapseWhiteSpace (s : string) : string := replaceRuns false s.

(** [s.includes(sub)]. *)
Fixpoint includes (s sub : string) : bool :=
  String.prefix sub s ||
  match s with
  | EmptyString => false
  | String _ t => includes t sub
  end.

(** [s.endsWith(suffix)]. *)
Definition endsWith (s suffix : string) : bool :=
  let n := String.length s in
  let k := String.length suffix in
  (k <=? n)%nat && String.eqb (String.substring (n - k) k s) suffix.

(** [s.slice(0, -1)]. *)
Definition dropLast (s : string) : string :=
  String.substring 0 (String.length s - 1) s.

(** *** Values and completions *)

(** What a property read on an object literal of numbers can give: one of
    its numbers, [undefined], or an object or function that the literal
    inherits from [Object.prototype]. *)
Inductive value : Type :=
  | Number (x : float)
  | Undefined
  | Inherited.

Definition ToBoolean (v : value) : bool :=
  match v with
  | Number x => truthy x
  | Undefined => false
  | Inherited => true
  end.

(** [ToNumber]: [undefined] is [NaN]; an object or function goes through
    its string form, which is not a numeral. *)
Definition ToNumber (v : value) : float :=
  match v with
  | Number x => x
  | Undefined => nan
  | Inherited => nan
  end.

(** The property names of [Object.prototype], which every object literal
    inherits. *)
Definition Object_prototype_keys : list string :=
  [ "constructor"; "hasOwnProperty"; "isPrototypeOf"; "propertyIsEnumerable";
    "toLocaleString"; "toString"; "valueOf"; "__proto__";
    "__defineGetter__"; "__defineSetter__";
    "__lookupGetter__"; "__lookupSetter__" ]%string.

(** [obj[key]] on an object literal whose own properties are [own]. *)
Definition get (own : gmap string float) (key : string) : value :=
  match own !! key with
  | Some x => Number x
  | None =>
      if existsb (String.eqb key) Object_prototype_keys then Inherited
      else Undefined
  end.

Inductive error : Type :=
  | ReferenceError (message : string).

Inductive completion (A : Type) : Type :=
  | Normal (a : A)
  | Throw (e : error).
Arguments Normal {A} a.
Arguments Throw {A} e.

Definition bind {A B} (c : completion A) (k : A -> completion B) : completion B :=
  match c with
  | Normal a => k a
  | Throw e => Throw e
  end.

(** A [const] binding is uninitialised from the start of its block until
    its declaration has been evaluated; a read in between throws. *)
Inductive binding : Type :=
  | Uninitialized
  | Initialized (x : float).

Definition read (name : string) (b : binding) : completion float :=
  match b with
  | Initialized x => Normal x
  | Uninitialized =>
      Throw (ReferenceError ("Cannot access '" ++ name ++ "' before initialization"))
  end.

End Js.

Notation "'let!' x ':=' c 'in' k" := (Js.bind c (fun x => k))
  (at level 10, x name, c at level 100, k at level 200).

(** ** The nutrition calculator ([src/lib/nutrition-calculator.ts]) *)

(** The columns of a stored [FoodItem] that the calculator reads.  The
    optional columns are [number | null]. *)
Module FoodItem.
Record t : Type := mk {
  calories : float;
  protein : float;
  carbs : float;
  fat : float;
  fiber : option float;
  sugar : option float;
  sodium : option float;
}.
End FoodItem.

Module ServingInfo.
Record t : Type := mk {
  quantity : float;
  unit : string;
  grams : float;
}.
End ServingInfo.

(** [FoodItemWithServing extends FoodItem]: the item's columns and its
    [serving]. *)
Module FoodItemWithServing.
Record t : Type := mk {
  item : FoodItem.t;
  serving : ServingInfo.t;
}.
End FoodItemWithServing.

(** [NutritionData], with [fiber?], [sugar?] and [sodium?]: [None] is
    [undefined]. *)
Module NutritionData.
Record t : Type := mk {
  calories : float;
  protein : float;
  carbs : float;
  fat : float;
  fiber : option float;
  sugar : option float;
  sodium : option float;
}.
End NutritionData.

(** [x ? x * scaleFactor : undefined] on an optional column. *)
Definition scaleOptional (x : option float) (scaleFactor : float) : option float :=
  match x with
  | Some v => if Js.truthy v then Some (v * scaleFactor) else None
  | None => None
  end.

Definition calculateNutritionForServing
    (foodItem : FoodItem.t) (serving : ServingInfo.t) : NutritionData.t :=
  let scaleFactor := ServingInfo.grams serving / 100 in
  {| NutritionData.calories := FoodItem.calories foodItem * scaleFactor;
     NutritionData.protein := FoodItem.protein foodItem * scaleFactor;
     NutritionData.carbs := FoodItem.carbs foodItem * scaleFactor;
     NutritionData.fat := FoodItem.fat foodItem * scaleFactor;
     NutritionData.fiber := scaleOptional (FoodItem.fiber foodItem) scaleFactor;
     NutritionData.sugar := scaleOptional (FoodItem.sugar foodItem) scaleFactor;
     NutritionData.sodium := scaleOptional (FoodItem.sodium foodItem) scaleFactor |}.

(** The accumulator of the two [reduce] calls: every field is a number. *)
Module Totals.
Record t : Type := mk {
  calories : float;
  protein : float;
  carbs : float;
  fat : float;
  fiber : float;
  sugar : float;
  sodium : float;
}.

Definition zero : t := mk 0 0 0 0 0 0 0.
End Totals.

(** The reducer of [calculateDailyTotals], which [calculateTotalNutrition]
    applies to each item's serving. *)
Definition addNutrition (acc : Totals.t) (nutrition : NutritionData.t) : Totals.t :=
  {| Totals.calories := Totals.calories acc + NutritionData.calories nutrition;
     Totals.protein := Totals.protein acc + NutritionData.protein nutrition;
     Totals.carbs := Totals.carbs acc + NutritionData.carbs nutrition;
     Totals.fat := Totals.fat acc + NutritionData.fat nutrition;
     Totals.fiber :=
       Js.or_else (Totals.fiber acc) 0 + Js.opt_or_else (NutritionData.fiber nutrition) 0;
     Totals.sugar :=
       Js.or_else (Totals.sugar acc) 0 + Js.opt_or_else (NutritionData.sugar nutrition) 0;
     Totals.sodium :=
       Js.or_else (Totals.sodium acc) 0 + Js.opt_or_else (NutritionData.sodium nutrition) 0 |}.

(** The [return] of both aggregators: rounding, and the optional fields
    kept only when their total is positive. *)
Definition roundTotals (totals : Totals.t) : NutritionData.t :=
  {| NutritionData.calories := Js.Math_round (Totals.calories totals);
     NutritionData.protein := Js.Math_round (Totals.protein totals * 10) / 10;
     NutritionData.carbs := Js.Math_round (Totals.carbs totals * 10) / 10;
     NutritionData.fat := Js.Math_round (Totals.fat totals * 10) / 10;
     NutritionData.fiber :=
       if PrimFloat.ltb 0 (Totals.fiber totals)
       then Some (Js.Math_round (Totals.fiber totals * 10) / 10) else None;
     NutritionData.sugar :=
       if PrimFloat.ltb 0 (Totals.sugar totals)
       then Some (Js.Math_round (Totals.sugar totals * 10) / 10) else None;
     NutritionData.sodium :=
       if PrimFloat.ltb 0 (Totals.sodium totals)
       then Some (Js.Math_round (Totals.sodium totals)) else None |}.

(** The reducer of [calculateTotalNutrition]: the item's nutrition for its
    serving, added to the accumulator. *)
Definition addServing (acc : Totals.t) (item : FoodItemWithServing.t) : Totals.t :=
  let nutrition :=
    calculateNutritionForServing
      (FoodItemWithServing.item item) (FoodItemWithServing.serving item) in
  addNutrition acc nutrition.

(** [items.reduce(...)] of [calculateTotalNutrition]. *)
Definition sumServings (items : list FoodItemWithServing.t) : Totals.t :=
  fold_left addServing items Totals.zero.

Definition calculateTotalNutrition (items : list FoodItemWithServing.t) : NutritionData.t :=
  roundTotals (sumServings items).

Definition calculateDailyTotals (meals : list NutritionData.t) : NutritionData.t :=
  roundTotals (fold_left addNutrition meals Totals.zero).

(** The own properties of the object literal [SERVING_CONVERSIONS]. *)
Definition SERVING_CONVERSIONS_entries : list (string * float) :=
  [ (* Volume *)
    ("cup", 240); ("fl oz", 30); ("tablespoon", 15); ("tbsp", 15);
    ("teaspoon", 5); ("tsp", 5);
    (* Weight *)
    ("g", 1); ("gram", 1); ("kg", 1000); ("kilogram", 1000);
    ("oz", 28.35); ("ounce", 28.35); ("lb", 453.59); ("pound", 453.59);
    (* Common serving sizes *)
    ("piece", 100); ("slice", 30); ("serving", 100); ("whole", 150);
    ("medium", 120); ("large", 180); ("small", 80) ]%string.

Definition SERVING_CONVERSIONS : gmap string float :=
  list_to_map SERVING_CONVERSIONS_entries.

Definition convertToGrams (quantity : float) (unit : string) : float :=
  let normalizedUnit := Js.trim (Js.toLowerCase unit) in
  let conversionFactor := Js.get SERVING_CONVERSIONS normalizedUnit in
  if Js.ToBoolean conversionFactor then quantity * Js.ToNumber conversionFactor
  else
    let singularFactor :=
      if Js.endsWith normalizedUnit "s"
      then Js.get SERVING_CONVERSIONS (Js.dropLast normalizedUnit)
      else Js.Undefined in
    if Js.ToBoolean singularFactor then quantity * Js.ToNumber singularFactor
    else quantity * 100.

Definition estimateGramsFromDescription (description : string) (quantity : float) : float :=
  let lowerDesc := Js.toLowerCase description in
  if Js.includes lowerDesc "whole" || Js.includes lowerDesc "entire" then quantity * 150
  else if Js.includes lowerDesc "slice" then quantity * 30
  else if Js.includes lowerDesc "piece" || Js.includes lowerDesc "chunk" then quantity * 100
  else if Js.includes lowerDesc "cup" then quantity * 240
  else if Js.includes lowerDesc "tablespoon" || Js.includes lowerDesc "tbsp" then quantity * 15
  else if Js.includes lowerDesc "teaspoon" || Js.includes lowerDesc "tsp" then quantity * 5
  else quantity * 100.

Module MacroPercentages.
Record t : Type := mk {
  proteinPercent : float;
  carbsPercent : float;
  fatPercent : float;
}.
End MacroPercentages.

Definition calculateMacroPercentages (nutrition : NutritionData.t) : MacroPercentages.t :=
  let totalCalories := Js.or_else (NutritionData.calories nutrition) 1 in
  let proteinCalories := NutritionData.protein nutrition * 4 in
  let carbsCalories := NutritionData.carbs nutrition * 4 in
  let fatCalories := NutritionData.fat nutrition * 9 in
  {| MacroPercentages.proteinPercent := Js.Math_round ((proteinCalories / totalCalories) * 100);
     MacroPercentages.carbsPercent := Js.Math_round ((carbsCalories / totalCalories) * 100);
     MacroPercentages.fatPercent := Js.Math_round ((fatCalories / totalCalories) * 100) |}.

(** ** The evaluation metrics ([src/lib/evaluation/metrics.ts]) *)

Module DetectedFood.
Record t : Type := mk {
  name : string;
  quantity : float;
  unit : string;
  confidence : float;
}.
End DetectedFood.

Module AIAnalysisResult.
Record t : Type := mk {
  foods : list DetectedFood.t;
  confidence : float;
  notes : option string;
}.
End AIAnalysisResult.

Module FoodGroundTruth.
Record t : Type := mk {
  name : string;
  quantity : float;
  unit : string;
  calories : float;
  protein : float;
  carbs : float;
  fat : float;
}.
End FoodGroundTruth.

Module GroundTruth.
Record t : Type := mk {
  foods : list FoodGroundTruth.t;
  totalCalories : float;
  totalProtein : float;
  totalCarbs : float;
  totalFat : float;
}.
End GroundTruth.

Module EvaluationMetrics.
Record t : Type := mk {
  precision : float;
  recall : float;
  f1Score : float;
  foodDetectionAccuracy : float;
  quantityAccuracy : float;
  avgQuantityError : float;
  calorieAccuracy : float;
  proteinAccuracy : float;
  carbsAccuracy : float;
  fatAccuracy : float;
  overallScore : float;
}.
End EvaluationMetrics.

Definition normalizeFood (name : string) : string :=
  Js.collapseWhiteSpace (Js.trim (Js.toLowerCase name)).

Definition foodsMatch (food1 food2 : string) : bool :=
  let norm1 := normalizeFood food1 in
  let norm2 := normalizeFood food2 in
  if String.eqb norm1 norm2 then true
  else if Js.includes norm1 norm2 || Js.includes norm2 norm1 then true
  else false.

(** *** The true-positive pass *)

(** The state of the pass: [truePositives] and the set [matchedActual]. *)
Definition matchState : Type := (Z * gset nat)%type.

(** The body of the inner [forEach], at [actual] and its [index]. *)
Definition claimActual (detected : string) (st : matchState) (entry : nat * string)
    : matchState :=
  let '(truePositives, matchedActual) := st in
  let '(index, actual) := entry in
  if negb (bool_decide (index ∈ matchedActual)) && foodsMatch detected actual
  then ((truePositives + 1)%Z, {[index]} ∪ matchedActual)
  else st.

(** The inner [forEach] over the whole of [actualFoods], for one
    [detected]. *)
Definition scanActual (actualFoods : list string) (st : matchState) (detected : string)
    : matchState :=
  fold_left (claimActual detected) (imap pair actualFoods) st.

(** The outer [forEach], from [truePositives = 0] and an empty set. *)
Definition matchFoods (detectedFoods actualFoods : list string) : matchState :=
  fold_left (scanActual actualFoods) detectedFoods (0%Z, ∅).

Definition detectedNames (aiResult : AIAnalysisResult.t) : list string :=
  map (fun f => normalizeFood (DetectedFood.name f)) (AIAnalysisResult.foods aiResult).

Definition actualNames (groundTruth : GroundTruth.t) : list string :=
  map (fun f => normalizeFood (FoodGroundTruth.name f)) (GroundTruth.foods groundTruth).

Definition truePositives (aiResult : AIAnalysisResult.t) (groundTruth : GroundTruth.t) : Z :=
  fst (matchFoods (detectedNames aiResult) (actualNames groundTruth)).

Definition falsePositives (aiResult : AIAnalysisResult.t) (groundTruth : GroundTruth.t) : Z :=
  Z.of_nat (length (detectedNames aiResult)) - truePositives aiResult groundTruth.

Definition falseNegatives (aiResult : AIAnalysisResult.t) (groundTruth : GroundTruth.t) : Z :=
  Z.of_nat (length (actualNames groundTruth)) - truePositives aiResult groundTruth.

Definition precision (aiResult : AIAnalysisResult.t) (groundTruth : GroundTruth.t) : float :=
  let tp := truePositives aiResult groundTruth in
  if (0 <? tp)%Z
  then Js.of_Z tp / Js.of_Z (tp + falsePositives aiResult groundTruth)
  else 0.

Definition recall (aiResult : AIAnalysisResult.t) (groundTruth : GroundTruth.t) : float :=
  let tp := truePositives aiResult groundTruth in
  if (0 <? tp)%Z
  then Js.of_Z tp / Js.of_Z (tp + falseNegatives aiResult groundTruth)
  else 0.

Definition f1Score (precision recall : float) : float :=
  if PrimFloat.ltb 0 (precision + recall)
  then (2 * precision * recall) / (precision + recall)
  else 0.

Definition foodDetectionAccuracy (aiResult : AIAnalysisResult.t) (groundTruth : GroundTruth.t)
    : float :=
  let n := Z.of_nat (length (actualNames groundTruth)) in
  if (0 <? n)%Z then Js.of_Z (truePositives aiResult groundTruth) / Js.of_Z n else 0.

(** *** Quantity accuracy *)

(** The body of the second [forEach]: the errors pushed for [aiFood].
    [convertToGrams] has no [throw], so the [catch] is never entered. *)
Definition quantityErrorOf (groundTruth : GroundTruth.t) (aiFood : DetectedFood.t)
    : list float :=
  match
    find (fun gtFood => foodsMatch (DetectedFood.name aiFood) (FoodGroundTruth.name gtFood))
      (GroundTruth.foods groundTruth)
  with
  | Some matchingGT =>
      let aiGrams := convertToGrams (DetectedFood.quantity aiFood) (DetectedFood.unit aiFood) in
      let gtGrams :=
        convertToGrams (FoodGroundTruth.quantity matchingGT) (FoodGroundTruth.unit matchingGT) in
      if PrimFloat.ltb 0 gtGrams then [Js.Math_abs (aiGrams - gtGrams) / gtGrams] else []
  | None => []
  end.

Definition quantityErrors (aiResult : AIAnalysisResult.t) (groundTruth : GroundTruth.t)
    : list float :=
  flat_map (quantityErrorOf groundTruth) (AIAnalysisResult.foods aiResult).

(** [arr.reduce((a, b) => a + b, 0)]. *)
Definition sum (arr : list float) : float := fold_left PrimFloat.add arr 0.

Definition avgQuantityError (aiResult : AIAnalysisResult.t) (groundTruth : GroundTruth.t)
    : float :=
  let errors := quantityErrors aiResult groundTruth in
  if (0 <? Z.of_nat (length errors))%Z
  then sum errors / Js.of_Z (Z.of_nat (length errors))
  else 1.

(** *** [calculateMetrics] *)

(** The initialiser on line 119, [Math.max(0, 1 - fatAccuracy)], reads
    the binding [self] that it is about to initialise. *)
Definition fatAccuracyInitializer (self : Js.binding) : Js.completion float :=
  let! fatAccuracy := Js.read "fatAccuracy" self in
  Js.Normal (Js.Math_max 0 (1 - fatAccuracy)).

(** The function body in source order.  The local [aiTotals] is never
    read, and the first [forEach] has an empty callback.  The [const]
    declarations are evaluated one after the other, so when the
    initialiser of [fatAccuracy] runs that binding is still
    uninitialised. *)
Definition calculateMetrics (aiResult : AIAnalysisResult.t) (groundTruth : GroundTruth.t)
    : Js.completion EvaluationMetrics.t :=
  (* 1. Food detection metrics *)
  let precision := precision aiResult groundTruth in
  let recall := recall aiResult groundTruth in
  let f1Score := f1Score precision recall in
  let foodDetectionAccuracy := foodDetectionAccuracy aiResult groundTruth in
  (* 2. Quantity accuracy *)
  let avgQuantityError := avgQuantityError aiResult groundTruth in
  let quantityAccuracy := Js.Math_max 0 (1 - avgQuantityError) in
  (* 3. Nutrition accuracy *)
  let calorieError := 0 in
  let proteinError := 0 in
  let carbsError := 0 in
  let calorieAccuracy := Js.Math_max 0 (1 - calorieError) in
  let proteinAccuracy := Js.Math_max 0 (1 - proteinError) in
  let carbsAccuracy := Js.Math_max 0 (1 - carbsError) in
  let! fatAccuracy := fatAccuracyInitializer Js.Uninitialized in
  (* 4. Overall score *)
  let overallScore := f1Score * 0.4 + quantityAccuracy * 0.3 + calorieAccuracy * 0.3 in
  Js.Normal
    {| EvaluationMetrics.precision := precision;
       EvaluationMetrics.recall := recall;
       EvaluationMetrics.f1Score := f1Score;
       EvaluationMetrics.foodDetectionAccuracy := foodDetectionAccuracy;
       EvaluationMetrics.quantityAccuracy := quantityAccuracy;
       EvaluationMetrics.avgQuantityError := avgQuantityError;
       EvaluationMetrics.calorieAccuracy := calorieAccuracy;
       EvaluationMetrics.proteinAccuracy := proteinAccuracy;
       EvaluationMetrics.carbsAccuracy := carbsAccuracy;
       EvaluationMetrics.fatAccuracy := fatAccuracy;
       EvaluationMetrics.overallScore := overallScore |}.

(** *** [calculateNutritionAccuracy] *)

Module AiTotals.
Record t : Type := mk {
  calories : float;
  protein : float;
  carbs : float;
  fat : float;
}.
End AiTotals.

Module NutritionAccuracy.
Record t : Type := mk {
  calorieAccuracy : float;
  proteinAccuracy : float;
  carbsAccuracy : float;
  fatAccuracy : float;
}.
End NutritionAccuracy.

Definition calculateNutritionAccuracy (aiTotals : AiTotals.t) (groundTruth : GroundTruth.t)
    : NutritionAccuracy.t :=
  let calorieError :=
    if PrimFloat.ltb 0 (GroundTruth.totalCalories groundTruth)
    then Js.Math_abs (AiTotals.calories aiTotals - GroundTruth.totalCalories groundTruth)
         / GroundTruth.totalCalories groundTruth
    else 0 in
  let proteinError :=
    if PrimFloat.ltb 0 (GroundTruth.totalProtein groundTruth)
    then Js.Math_abs (AiTotals.protein aiTotals - GroundTruth.totalProtein groundTruth)
         / GroundTruth.totalProtein groundTruth
    else 0 in
  let carbsError :=
    if PrimFloat.ltb 0 (GroundTruth.totalCarbs groundTruth)
    then Js.Math_abs (AiTotals.carbs aiTotals - GroundTruth.totalCarbs groundTruth)
         / GroundTruth.totalCarbs groundTruth
    else 0 in
  let fatError :=
    if PrimFloat.ltb 0 (GroundTruth.totalFat groundTruth)
    then Js.Math_abs (AiTotals.fat aiTotals - GroundTruth.totalFat groundTruth)
         / GroundTruth.totalFat groundTruth
    else 0 in
  {| NutritionAccuracy.calorieAccuracy := Js.Math_max 0 (1 - calorieError);
     NutritionAccuracy.proteinAccuracy := Js.Math_max 0 (1 - proteinError);
     NutritionAccuracy.carbsAccuracy := Js.Math_max 0 (1 - carbsError);
     NutritionAccuracy.fatAccuracy := Js.Math_max 0 (1 - fatError) |}.

(** *** [aggregateMetrics] *)

(** [avg]: the sum over the length, with no guard on an empty array. *)
Definition avg (arr : list float) : float :=
  sum arr / Js.of_Z (Z.of_nat (length arr)).

Definition aggregateMetrics (results : list EvaluationMetrics.t) : EvaluationMetrics.t :=
  {| EvaluationMetrics.precision := avg (map EvaluationMetrics.precision results);
     EvaluationMetrics.recall := avg (map EvaluationMetrics.recall results);
     EvaluationMetrics.f1Score := avg (map EvaluationMetrics.f1Score results);
     EvaluationMetrics.foodDetectionAccuracy :=
       avg (map EvaluationMetrics.foodDetectionAccuracy results);
     EvaluationMetrics.quantityAccuracy := avg (map EvaluationMetrics.quantityAccuracy results);
     EvaluationMetrics.avgQuantityError := avg (map EvaluationMetrics.avgQuantityError results);
     EvaluationMetrics.calorieAccuracy := avg (map EvaluationMetrics.calorieAccuracy results);
     EvaluationMetrics.proteinAccuracy := avg (map EvaluationMetrics.proteinAccuracy results);
     EvaluationMetrics.carbsAccuracy := avg (map EvaluationMetrics.carbsAccuracy results);
     EvaluationMetrics.fatAccuracy := avg (map EvaluationMetrics.fatAccuracy results);
     EvaluationMetrics.overallScore := avg (map EvaluationMetrics.overallScore results) |}.

(** ** The evaluation run ([src/app/api/evaluation/run/route.ts], [POST]) *)

(** The loop over the benchmark items, the aggregation that follows it
    and the response.  An item holds its [groundTruth] column as the
    string that is stored, and [JSON.parse] is a function of the
    environment, from the column to the value it returns or to what it
    throws.  The awaited calls (the vision model, the nutrition searches,
    the store) are outside the model: each item comes with what the
    awaited calls of its [try] block produce, which is either a thrown
    value or the analysis together with the foods and totals of the
    lookups, and the run comes with what the store throws, if it
    throws. *)
Module EvaluationRun.

(** A value that reaches [catch (error)]. *)
Inductive caught : Type :=
  | ErrorObject (message : string)
  | NotAnError.

(** [error instanceof Error ? error.message : 'Unknown error']. *)
Definition messageOf (error : caught) : string :=
  match error with
  | ErrorObject message => message
  | NotAnError => "Unknown error"
  end.

(** A [ReferenceError] is an [Error]. *)
Definition ofError (error : Js.error) : caught :=
  match error with
  | Js.ReferenceError message => ErrorObject message
  end.

(** A value that [JSON.parse] returns. *)
Inductive json : Type :=
  | JNull
  | JBoolean (b : bool)
  | JNumber (x : float)
  | JString (s : string)
  | JArray (elements : list json)
  | JObject (properties : list (string * json)).

(** [object[key]] on a parsed object, whose properties are listed in the
    order of the text: of two properties of the same name the later one
    is kept.  None of the keys read below is inherited. *)
Fixpoint property (properties : list (string * json)) (key : string) : option json :=
  match properties with
  | [] => None
  | (k, v) :: rest =>
      match property rest key with
      | Some later => Some later
      | None => if String.eqb k key then Some v else None
      end
  end.

Definition asNumber (value : json) : option float :=
  match value with
  | JNumber x => Some x
  | _ => None
  end.

Definition asString (value : json) : option string :=
  match value with
  | JString s => Some s
  | _ => None
  end.

Definition asArray (value : json) : option (list json) :=
  match value with
  | JArray elements => Some elements
  | _ => None
  end.

(** The parsed values of type [FoodGroundTruth] and [GroundTruth]
    ([src/types/usda.ts]). *)
Definition asFoodGroundTruth (value : json) : option FoodGroundTruth.t :=
  match value with
  | JObject properties =>
      name ← property properties "name" ≫= asString;
      quantity ← property properties "quantity" ≫= asNumber;
      unit ← property properties "unit" ≫= asString;
      calories ← property properties "calories" ≫= asNumber;
      protein ← property properties "protein" ≫= asNumber;
      carbs ← property properties "carbs" ≫= asNumber;
      fat ← property properties "fat" ≫= asNumber;
      Some (FoodGroundTruth.mk name quantity unit calories protein carbs fat)
  | _ => None
  end.

Definition asGroundTruth (value : json) : option GroundTruth.t :=
  match value with
  | JObject properties =>
      elements ← property properties "foods" ≫= asArray;
      foods ← mapM (M := option) asFoodGroundTruth elements;
      totalCalories ← property properties "totalCalories" ≫= asNumber;
      totalProtein ← property properties "totalProtein" ≫= asNumber;
      totalCarbs ← property properties "totalCarbs" ≫= asNumber;
      totalFat ← property properties "totalFat" ≫= asNumber;
      Some (GroundTruth.mk foods totalCalories totalProtein totalCarbs totalFat)
  | _ => None
  end.

(** Whether [normalizeFood(f.name)] returns: [f] is an object whose
    [name] is a string.  On any other value the read of [name] or the
    call of [toLowerCase] throws a [TypeError]. *)
Definition isNamedFood (f : json) : bool :=
  match f with
  | JObject properties =>
      match property properties "name" with
      | Some (JString _) => true
      | _ => false
      end
  | _ => false
  end.

(** Whether [groundTruth.foods.map((f) => normalizeFood(f.name))]
    ([metrics.ts], line 56) returns: [groundTruth] is an object whose
    [foods] is an array of named foods.  On any other value the read of
    [foods], the call of [map] or the callback throws a [TypeError]. *)
Definition hasNamedFoods (groundTruth : json) : bool :=
  match groundTruth with
  | JObject properties =>
      match property properties "foods" with
      | Some (JArray elements) => forallb isNamedFood elements
      | _ => false
      end
  | _ => false
  end.

Record BenchmarkItem : Type := mkBenchmarkItem {
  imageUrl : string;
  groundTruth : string;
}.

(** An element of [foodsWithNutrition]: [{ ...food, nutrition }]. *)
Record FoodWithNutrition : Type := mkFoodWithNutrition {
  food : DetectedFood.t;
  nutrition : option NutritionData.t;
}.

(** What the [try] block holds when it reaches [calculateMetrics]. *)
Record Lookups : Type := mkLookups {
  aiAnalysis : AIAnalysisResult.t;
  foodsWithNutrition : list FoodWithNutrition;
  aiTotals : AiTotals.t;
}.

(** An item of the loop, with what the awaited calls of its [try] block
    produce. *)
Definition entry : Type := (BenchmarkItem * (caught + Lookups))%type.

(** [{ ...aiAnalysis, foods: foodsWithNutrition, totals: aiTotals }]. *)
Record AiResult : Type := mkAiResult {
  foods : list FoodWithNutrition;
  confidence : float;
  notes : option string;
  totals : AiTotals.t;
}.

Record EvaluationResult : Type := mkEvaluationResult {
  resultImageUrl : string;
  aiResult : option AiResult;
  resultGroundTruth : json;
  metrics : EvaluationMetrics.t;
  errors : option (list string);
}.

(** The data of the success response. *)
Record RunSummary : Type := mkRunSummary {
  aggregated : EvaluationMetrics.t;
  totalItems : Z;
  averageConfidence : float;
  results : list EvaluationResult;
}.

(** [errorResponse(error, status)] and [successResponse(data)]
    ([src/lib/api-response.ts]). *)
Inductive response : Type :=
  | ErrorResponse (error : string) (status : Z)
  | SuccessResponse (data : RunSummary).

Definition handleApiError (error : caught) : response :=
  match error with
  | ErrorObject message => ErrorResponse message 500
  | NotAnError => ErrorResponse "An unknown error occurred" 500
  end.

(** The metrics literal of the [catch] block. *)
Definition failedMetrics : EvaluationMetrics.t :=
  EvaluationMetrics.mk 0 0 0 0 0 1 0 0 0 0 0.

(** The result that the [catch] block of the loop pushes, once its
    [JSON.parse(item.groundTruth)] has returned [groundTruth]. *)
Definition failed (item : BenchmarkItem) (groundTruth : json) (error : caught)
    : EvaluationResult :=
  {| resultImageUrl := imageUrl item;
     aiResult := None;
     resultGroundTruth := groundTruth;
     metrics := failedMetrics;
     errors := Some [messageOf error] |}.

(** The rest of the [try] block on a ground truth of the declared type:
    the metrics, the nutrition accuracies spread over them, the overall
    score computed again, and the result pushed. *)
Definition scoreTyped (item : BenchmarkItem) (groundTruth : json) (typed : GroundTruth.t)
    (lookups : Lookups) : Js.completion EvaluationResult :=
  let! metrics := calculateMetrics (aiAnalysis lookups) typed in
  let nutritionAccuracy := calculateNutritionAccuracy (aiTotals lookups) typed in
  let f1Score := EvaluationMetrics.f1Score metrics in
  let quantityAccuracy := EvaluationMetrics.quantityAccuracy metrics in
  let calorieAccuracy := NutritionAccuracy.calorieAccuracy nutritionAccuracy in
  Js.Normal
    {| resultImageUrl := imageUrl item;
       aiResult :=
         Some {| foods := foodsWithNutrition lookups;
                 confidence := AIAnalysisResult.confidence (aiAnalysis lookups);
                 notes := AIAnalysisResult.notes (aiAnalysis lookups);
                 totals := aiTotals lookups |};
       resultGroundTruth := groundTruth;
       metrics :=
         {| EvaluationMetrics.precision := EvaluationMetrics.precision metrics;
            EvaluationMetrics.recall := EvaluationMetrics.recall metrics;
            EvaluationMetrics.f1Score := f1Score;
            EvaluationMetrics.foodDetectionAccuracy :=
              EvaluationMetrics.foodDetectionAccuracy metrics;
            EvaluationMetrics.quantityAccuracy := quantityAccuracy;
            EvaluationMetrics.avgQuantityError := EvaluationMetrics.avgQuantityError metrics;
            EvaluationMetrics.calorieAccuracy := calorieAccuracy;
            EvaluationMetrics.proteinAccuracy :=
              NutritionAccuracy.proteinAccuracy nutritionAccuracy;
            EvaluationMetrics.carbsAccuracy := NutritionAccuracy.carbsAccuracy nutritionAccuracy;
            EvaluationMetrics.fatAccuracy := NutritionAccuracy.fatAccuracy nutritionAccuracy;
            EvaluationMetrics.overallScore :=
              f1Score * 0.4 + quantityAccuracy * 0.3 + calorieAccuracy * 0.3 |};
       errors := None |}.

(** [r.aiResult?.confidence || 0]. *)
Definition confidenceOf (result : EvaluationResult) : float :=
  match aiResult result with
  | Some ai => Js.or_else (confidence ai) 0
  | None => 0
  end.

Section Environment.

(** [JSON.parse(text)]: the value, or what is thrown. *)
Variable JSON_parse : string -> caught + json.

(** The message of the [TypeError] that line 56 of [metrics.ts] throws on
    a parsed value without named foods; its text is the engine's. *)
Variable typeErrorMessage : json -> string.

(** The [try] block from [calculateMetrics] on, which is handed whatever
    [JSON.parse] returned.  On a value without named foods line 56
    throws.  On any other value the statements up to line 118 return,
    the conversions of a quantity being inside a [try] of their own, and
    line 119 reads [fatAccuracy] in its own initialiser; on a value of the
    declared type this is [calculateMetrics] above. *)
Definition score (item : BenchmarkItem) (groundTruth : json) (lookups : Lookups)
    : caught + EvaluationResult :=
  if negb (hasNamedFoods groundTruth)
  then inl (ErrorObject (typeErrorMessage groundTruth))
  else
    match asGroundTruth groundTruth with
    | Some typed =>
        match scoreTyped item groundTruth typed lookups with
        | Js.Normal result => inr result
        | Js.Throw error => inl (ofError error)
        end
    | None => inl (ErrorObject "Cannot access 'fatAccuracy' before initialization")
    end.

(** One turn of the loop: the result pushed, or what the turn throws.
    When [JSON.parse] throws in the [try] block it throws again in the
    [catch] block, which nothing inside the loop catches. *)
Definition evaluateItem (benchmarkItem : entry)
    : caught + EvaluationResult :=
  let '(item, awaited) := benchmarkItem in
  match JSON_parse (groundTruth item) with
  | inl error => inl error
  | inr parsed =>
      match awaited with
      | inl error => inr (failed item parsed error)
      | inr lookups =>
          match score item parsed lookups with
          | inr result => inr result
          | inl error => inr (failed item parsed error)
          end
      end
  end.

(** [for (const item of benchmarkItems) { ... }]: the results pushed, or
    what the first turn that throws has thrown. *)
Fixpoint evaluateItems (benchmarkItems : list entry)
    : caught + list EvaluationResult :=
  match benchmarkItems with
  | [] => inr []
  | benchmarkItem :: rest =>
      match evaluateItem benchmarkItem with
      | inl error => inl error
      | inr result =>
          match evaluateItems rest with
          | inl error => inl error
          | inr results => inr (result :: results)
          end
      end
  end.

(** The handler from the loop on: the 400 response for an empty
    benchmark, the 500 response when the loop or the store throws, or the
    summary. *)
Definition run (benchmarkItems : list entry)
    (storeThrows : option caught) : response :=
  if (Z.of_nat (length benchmarkItems) =? 0)%Z
  then ErrorResponse "No benchmark items found. Please create benchmark dataset first." 400
  else
    match evaluateItems benchmarkItems with
    | inl error => handleApiError error
    | inr results =>
        let validResults :=
          List.filter
            (fun r => PrimFloat.ltb 0 (EvaluationMetrics.overallScore (metrics r))) results in
        let aggregated := aggregateMetrics (map metrics validResults) in
        let averageConfidence :=
          fold_left (fun sum r => sum + confidenceOf r) validResults 0
          / Js.Math_max (Js.of_Z (Z.of_nat (length validResults))) 1 in
        match storeThrows with
        | Some error => handleApiError error
        | None =>
            SuccessResponse
              {| aggregated := aggregated;
                 totalItems := Z.of_nat (length results);
                 averageConfidence := averageConfidence;
                 results := results |}
        end
    end.

End Environment.

End EvaluationRun.

(** ** The USDA client ([src/lib/usda-client.ts]) *)

Module USDAFoodNutrient.
Record t : Type := mk {
  nutrientId : float;
  nutrientName : string;
  nutrientNumber : string;
  unitName : string;
  value : float;
}.
End USDAFoodNutrient.

(** The fields of a [USDAFood] that are not optional, and
    [foodNutrients?]. *)
Module USDAFood.
Record t : Type := mk {
  fdcId : float;
  description : string;
  dataType : string;
  foodNutrients : option (list USDAFoodNutrient.t);
}.
End USDAFood.

Module NUTRIENT_IDS.
Definition ENERGY : float := 1008.
Definition PROTEIN : float := 1003.
Definition CARBOHYDRATE : float := 1005.
Definition FAT : float := 1004.
Definition FIBER : float := 1079.
Definition SUGAR : float := 2000.
Definition SODIUM : float := 1093.
End NUTRIENT_IDS.

(** [findNutrient]: the value of the first nutrient with that id, and 0
    when there is none or its value is falsy. *)
Definition findNutrient (nutrients : list USDAFoodNutrient.t) (nutrientId : float) : float :=
  match find (fun n => PrimFloat.eqb (USDAFoodNutrient.nutrientId n) nutrientId) nutrients with
  | Some nutrient => Js.or_else (USDAFoodNutrient.value nutrient) 0
  | None => 0
  end.

(** [x || undefined] on a number. *)
Definition orUndefined (x : float) : option float :=
  if Js.truthy x then Some x else None.

Definition extractNutritionData (food : USDAFood.t) : NutritionData.t :=
  let nutrients :=
    match USDAFood.foodNutrients food with
    | Some nutrients => nutrients
    | None => []
    end in
  {| NutritionData.calories := findNutrient nutrients NUTRIENT_IDS.ENERGY;
     NutritionData.protein := findNutrient nutrients NUTRIENT_IDS.PROTEIN;
     NutritionData.carbs := findNutrient nutrients NUTRIENT_IDS.CARBOHYDRATE;
     NutritionData.fat := findNutrient nutrients NUTRIENT_IDS.FAT;
     NutritionData.fiber := orUndefined (findNutrient nutrients NUTRIENT_IDS.FIBER);
     NutritionData.sugar := orUndefined (findNutrient nutrients NUTRIENT_IDS.SUGAR);
     NutritionData.sodium := orUndefined (findNutrient nutrients NUTRIENT_IDS.SODIUM) |}.

(** The nutrition columns that [getCachedFoodItem] stores for a food that
    is not cached yet: [undefined] is stored as [null]. *)
Definition cachedColumns (nutrition : NutritionData.t) : FoodItem.t :=
  {| FoodItem.calories := NutritionData.calories nutrition;
     FoodItem.protein := NutritionData.protein nutrition;
     FoodItem.carbs := NutritionData.carbs nutrition;
     FoodItem.fat := NutritionData.fat nutrition;
     FoodItem.fiber := NutritionData.fiber nutrition;
     FoodItem.sugar := NutritionData.sugar nutrition;
     FoodItem.sodium := NutritionData.sodium nutrition |}.

(** ** Image validation ([src/lib/image-validator.ts]) *)

Module ImageValidator.

(** [s.lastIndexOf(c)] for a one-character [c]: the last index at which
    [c] occurs, and -1 when it does not. *)
Fixpoint lastIndexOfFrom (c : ascii) (s : string) (index found : Z) : Z :=
  match s with
  | EmptyString => found
  | String d t => lastIndexOfFrom c t (index + 1) (if Ascii.eqb d c then index else found)
  end.

Definition lastIndexOf (s : string) (c : ascii) : Z := lastIndexOfFrom c s 0 (-1).

(** [s.substring(start)]: a negative [start] counts as 0, and one beyond
    the end gives the empty string. *)
Definition substringFrom (s : string) (start : Z) : string :=
  let k := Z.to_nat (Z.max 0 start) in
  String.substring k (String.length s - k) s.

(** [array.includes(s)] on an array of strings. *)
Definition includesString (array : list string) (s : string) : bool :=
  existsb (String.eqb s) array.

(** [array.join(', ')]. *)
Definition joinComma (array : list string) : string := String.concat ", " array.

(** After a literal prefix: the rest of [s], when [s] starts with it. *)
Fixpoint afterPrefix (literal s : string) : option string :=
  match literal, s with
  | EmptyString, _ => Some s
  | String a literal', String b s' => if Ascii.eqb a b then afterPrefix literal' s' else None
  | String _ _, EmptyString => None
  end.

Definition isLowerAZ (c : ascii) : bool :=
  let n := nat_of_ascii c in ((97 <=? n) && (n <=? 122))%nat.

(** The longest run of [a-z] at the start of [s], and what follows it. *)
Fixpoint spanLower (s : string) : string * string :=
  match s with
  | EmptyString => (EmptyString, EmptyString)
  | String c t =>
      if isLowerAZ c then let '(run, rest) := spanLower t in (String c run, rest)
      else (EmptyString, s)
  end.

(** A match of [/^data:image\/[a-z]+;base64,/] at the start of [s]: what
    follows the match.  The character after the letters must be [;],
    which is no letter, so only the longest run of letters can match. *)
Definition afterDataUrlPrefix (s : string) : option string :=
  match afterPrefix "data:image/" s with
  | Some afterSlash =>
      let '(subtype, afterSubtype) := spanLower afterSlash in
      match subtype with
      | EmptyString => None
      | String _ _ => afterPrefix ";base64," afterSubtype
      end
  | None => None
  end.

(** [/^data:image\/(jpeg|jpg|png|webp);base64,/.test(s)]. *)
Definition hasImageDataPrefix (s : string) : bool :=
  existsb
    (fun subtype => String.prefix ("data:image/" ++ subtype ++ ";base64,") s)
    ["jpeg"; "jpg"; "png"; "webp"]%string.

(** The double-quote character, code unit 34. *)
Definition doubleQuote : ascii := ascii_of_nat 34.

Definition ALLOWED_MIME_TYPES : list string :=
  ["image/jpeg"; "image/jpg"; "image/png"; "image/webp"]%string.

Definition ALLOWED_EXTENSIONS : list string := [".jpg"; ".jpeg"; ".png"; ".webp"]%string.

Record ValidationError : Type := mkValidationError {
  field : string;
  message : string;
}.

(** The properties of a [File] that the validator reads. *)
Record File : Type := mkFile {
  name : string;
  size : float;
  type : string;
}.

Record ImageValidationResult : Type := mkImageValidationResult {
  valid : bool;
  errors : list ValidationError;
  file : option File;
}.

Section Environment.

(** [parseInt(process.env.MAX_FILE_SIZE || '10485760', 10)]. *)
Variable MAX_FILE_SIZE : float.

(** [x.toFixed(2)]. *)
Variable toFixed2 : float -> string.

Definition sizeError (fileSize : float) : list ValidationError :=
  if PrimFloat.ltb MAX_FILE_SIZE fileSize then
    let maxSizeMB := toFixed2 (MAX_FILE_SIZE / 1024 / 1024) in
    let fileSizeMB := toFixed2 (fileSize / 1024 / 1024) in
    [ {| field := "size";
         message := "File size (" ++ fileSizeMB ++ "MB) exceeds maximum allowed size ("
                    ++ maxSizeMB ++ "MB)" |} ]
  else [].

Definition typeError (fileType : string) : list ValidationError :=
  if negb (includesString ALLOWED_MIME_TYPES fileType) then
    [ {| field := "type";
         message := "Invalid file type: " ++ fileType ++ ". Allowed types: "
                    ++ joinComma ALLOWED_MIME_TYPES |} ]
  else [].

Definition extensionOf (fileName : string) : string :=
  substringFrom (Js.toLowerCase fileName) (lastIndexOf fileName "."%char).

Definition extensionError (fileName : string) : list ValidationError :=
  let extension := extensionOf fileName in
  if negb (includesString ALLOWED_EXTENSIONS extension) then
    [ {| field := "extension";
         message := "Invalid file extension: " ++ extension ++ ". Allowed extensions: "
                    ++ joinComma ALLOWED_EXTENSIONS |} ]
  else [].

Definition nameError (fileName : string) : list ValidationError :=
  if (255 <? Z.of_nat (String.length fileName))%Z then
    [ {| field := "name"; message := "File name is too long (maximum 255 characters)" |} ]
  else [].

(** [validateImageFile]; [None] is a [null] file. *)
Definition validateImageFile (file : option File) : ImageValidationResult :=
  match file with
  | None =>
      {| valid := false;
         errors := [ {| field := "file"; message := "No file provided" |} ];
         file := None |}
  | Some f =>
      let errors :=
        sizeError (size f) ++ typeError (type f) ++ extensionError (name f)
        ++ nameError (name f) in
      {| valid := (Z.of_nat (length errors) =? 0)%Z;
         errors := errors;
         file := if (Z.of_nat (length errors) =? 0)%Z then Some f else None |}
  end.

Definition validateBase64Image (base64 : string) : ImageValidationResult :=
  match base64 with
  | EmptyString =>
      {| valid := false;
         errors := [ {| field := "base64"; message := "No base64 string provided" |} ];
         file := None |}
  | String _ _ =>
      let formatError :=
        if negb (hasImageDataPrefix base64) then
          [ {| field := "format";
               message := "Invalid base64 format. Must start with "
                          ++ String doubleQuote "data:image/{jpeg|png|webp};base64,"
                          ++ String doubleQuote EmptyString |} ]
        else [] in
      let estimatedSize := (Js.of_Z (Z.of_nat (String.length base64)) * 3) / 4 in
      let estimateError :=
        if PrimFloat.ltb MAX_FILE_SIZE estimatedSize then
          let maxSizeMB := toFixed2 (MAX_FILE_SIZE / 1024 / 1024) in
          let estimatedSizeMB := toFixed2 (estimatedSize / 1024 / 1024) in
          [ {| field := "size";
               message := "Estimated image size (" ++ estimatedSizeMB ++ "MB) exceeds maximum ("
                          ++ maxSizeMB ++ "MB)" |} ]
        else [] in
      let errors := formatError ++ estimateError in
      {| valid := (Z.of_nat (length errors) =? 0)%Z; errors := errors; file := None |}
  end.

End Environment.

(** A property read on an object literal of strings. *)
Inductive property : Type :=
  | Text (s : string)
  | Inherited
  | Missing.

Definition mimeMap : gmap string string :=
  list_to_map
    [ ("image/jpeg", ".jpg"); ("image/jpg", ".jpg"); ("image/png", ".png");
      ("image/webp", ".webp") ]%string.

Definition getText (own : gmap string string) (key : string) : property :=
  match own !! key with
  | Some s => Text s
  | None => if existsb (String.eqb key) Js.Object_prototype_keys then Inherited else Missing
  end.

(** [mimeMap[mimeType] || '.jpg']: the empty string and [undefined] are
    falsy, an inherited function is not. *)
Definition getExtensionFromMimeType (mimeType : string) : property :=
  match getText mimeMap mimeType with
  | Text EmptyString => Text ".jpg"
  | Text s => Text s
  | Inherited => Inherited
  | Missing => Text ".jpg"
  end.

(** [dataUrl.replace(/^data:image\/[a-z]+;base64,/, '')]. *)
Definition extractBase64Data (dataUrl : string) : string :=
  match afterDataUrlPrefix dataUrl with
  | Some data => data
  | None => dataUrl
  end.

End ImageValidator.

(** ** Definitions used in the statements *)

(** The error that a read of [fatAccuracy] in its own initialiser raises. *)
Definition fatAccuracy_TDZ : Js.error :=
  Js.ReferenceError "Cannot access 'fatAccuracy' before initialization".

(** The indices [k, ..., k + n - 1] of [actualFoods] that [matchedActual]
    has not claimed. *)
Definition unclaimed (matchedActual : gset nat) (k n : nat) : list nat :=
  filter (λ i, i ∉ matchedActual) (seq k n).

(** The invariant of the true-positive pass over [n] ground-truth foods:
    [truePositives] is the number of claimed indices, all below [n]. *)
Definition countsClaimed (n : nat) (st : matchState) : Prop :=
  fst st = Z.of_nat (size (snd st)) /\ forall i, i ∈ snd st -> (i < n)%nat.

(** The accuracy of one nutrient, in the words of the specification:
    relative error [|ai - gt| / gt] when [gt > 0] and [0] when [gt = 0];
    accuracy [max(0, 1 - error)]. *)
Definition accuracy_as_specified (ai gt accuracy : float) : Prop :=
  (PrimFloat.ltb 0 gt = true ->
   accuracy = Js.Math_max 0 (1 - Js.Math_abs (ai - gt) / gt))
  /\ (PrimFloat.eqb gt 0 = true -> accuracy = Js.Math_max 0 (1 - 0)).

(** The keyword table of [estimateGramsFromDescription] as the
    specification lists it, in priority order. *)
Definition keywords_as_specified : list (string * float) :=
  [ ("whole", 150); ("slice", 30); ("piece", 100); ("chunk", 100); ("cup", 240);
    ("tablespoon", 15); ("tbsp", 15); ("teaspoon", 5); ("tsp", 5) ]%string.

(** The keyword table that the code tests, in the order of its [if]s. *)
Definition keywords_of_code : list (string * float) :=
  [ ("whole", 150); ("entire", 150); ("slice", 30); ("piece", 100); ("chunk", 100);
    ("cup", 240); ("tablespoon", 15); ("tbsp", 15); ("teaspoon", 5); ("tsp", 5) ]%string.

(** The per-unit weight of the first keyword of [table] that [text]
    contains, and 100 when it contains none. *)
Definition firstKeywordWeight (table : list (string * float)) (text : string) : float :=
  match find (fun entry => Js.includes text (fst entry)) table with
  | Some entry => snd entry
  | None => 100
  end.

(** An optional column that is present and zero ([+0] or [-0]). *)
Definition knownZero (x : option float) : Prop :=
  exists z, x = Some z /\ PrimFloat.eqb z 0 = true.

(** An optional column that is absent, or present and zero. *)
Definition zeroOrAbsent (x : option float) : Prop :=
  x = None \/ knownZero x.

(** Inputs used in the examples below. *)
Definition food (name : string) : DetectedFood.t := DetectedFood.mk name 1 "cup" 0.9.

Definition truth (name : string) : FoodGroundTruth.t :=
  FoodGroundTruth.mk name 1 "cup" 200 4 45 1.

Definition rice_only : AIAnalysisResult.t :=
  AIAnalysisResult.mk [food "rice"] 0.9 None.

Definition two_rice_dishes : GroundTruth.t :=
  GroundTruth.mk [truth "fried rice"; truth "rice pudding"] 400 8 90 2.

Definition apple : FoodItem.t := FoodItem.mk 52 0.3 14 0.2 (Some 0) (Some 10) (Some 1).

Definition one_medium : ServingInfo.t := ServingInfo.mk 1 "medium" 120.

(** A food with a fiber column of 5, a serving of 0 g, and a food with a
    fiber column of 0.03 in a serving of 100 g. *)
Definition oats : FoodItem.t := FoodItem.mk 389 17 66 7 (Some 5) None None.

Definition no_serving : ServingInfo.t := ServingInfo.mk 0 "g" 0.

Definition broth : FoodItem.t := FoodItem.mk 4 0.5 0.25 0.125 (Some 0.03) None None.

Definition hundred_grams : ServingInfo.t := ServingInfo.mk 100 "g" 100.

(** Whether an output field is the number 0. *)
Definition isNumberZero (x : option float) : bool :=
  match x with
  | Some v => PrimFloat.eqb v 0
  | None => false
  end.

(** Index [j], at or after [k], holds a name that [detected] matches. *)
Definition claimedBy (detected : string) (actualFoods : list string) (k j : nat) : Prop :=
  (k <= j)%nat /\ exists actual, actualFoods !! (j - k)%nat = Some actual
                           /\ foodsMatch detected actual = true.

(** The indices, from [k] on, of the elements of a list that satisfy [p]. *)
Fixpoint indicesWhere {A : Type} (p : A -> bool) (l : list A) (k : nat) : list nat :=
  match l with
  | [] => []
  | a :: rest => if p a then k :: indicesWhere p rest (S k) else indicesWhere p rest (S k)
  end.

(** The ground-truth foods that at least one detected food matches. *)
Definition matchedGroundTruth (aiResult : AIAnalysisResult.t) (groundTruth : GroundTruth.t)
    : list FoodGroundTruth.t :=
  List.filter
    (fun gtFood =>
       existsb (fun aiFood => foodsMatch (DetectedFood.name aiFood) (FoodGroundTruth.name gtFood))
         (AIAnalysisResult.foods aiResult))
    (GroundTruth.foods groundTruth).

(** Whether some detected food matches some ground-truth food. *)
Definition anyMatch (aiResult : AIAnalysisResult.t) (groundTruth : GroundTruth.t) : bool :=
  existsb
    (fun aiFood =>
       existsb
         (fun gtFood => foodsMatch (DetectedFood.name aiFood) (FoodGroundTruth.name gtFood))
         (GroundTruth.foods groundTruth))
    (AIAnalysisResult.foods aiResult).

(** No detected food matches any ground-truth food. *)
Definition nothingMatches (aiResult : AIAnalysisResult.t) (groundTruth : GroundTruth.t) : Prop :=
  forall aiFood gtFood,
    aiFood ∈ AIAnalysisResult.foods aiResult ->
    gtFood ∈ GroundTruth.foods groundTruth ->
    foodsMatch (DetectedFood.name aiFood) (FoodGroundTruth.name gtFood) = false.

(** The code units [A] to [Z]. *)
Definition isUpperAZ (c : ascii) : bool :=
  let n := nat_of_ascii c in ((65 <=? n) && (n <=? 90))%nat.

(** Whether a string holds one of [A] to [Z]. *)
Fixpoint hasUpper (s : string) : bool :=
  match s with
  | EmptyString => false
  | String c t => isUpperAZ c || hasUpper t
  end.

(** The two property names of [Object.prototype] without a capital. *)
Definition reachesPrototype (key : string) : bool :=
  String.eqb key "constructor" || String.eqb key "__proto__".

(** The factor that [convertToGrams] applies to a normalised unit. *)
Definition conversionFactorOf (normalizedUnit : string) : float :=
  match SERVING_CONVERSIONS !! normalizedUnit with
  | Some factor => factor
  | None =>
      if reachesPrototype normalizedUnit then nan
      else if Js.endsWith normalizedUnit "s" then
        match SERVING_CONVERSIONS !! Js.dropLast normalizedUnit with
        | Some factor => factor
        | None => if reachesPrototype (Js.dropLast normalizedUnit) then nan else 100
        end
      else 100
  end.

(** A normalised unit for which a read reaches [Object.prototype]. *)
Definition readsPrototype (normalizedUnit : string) : bool :=
  match SERVING_CONVERSIONS !! normalizedUnit with
  | Some _ => false
  | None =>
      reachesPrototype normalizedUnit
      || Js.endsWith normalizedUnit "s"
         && match SERVING_CONVERSIONS !! Js.dropLast normalizedUnit with
            | Some _ => false
            | None => reachesPrototype (Js.dropLast normalizedUnit)
            end
  end.

(** Whether no meal of the list has a truthy value in the optional field
    [get]. *)
Definition noneReports (get : NutritionData.t -> option float) (meals : list NutritionData.t)
    : bool :=
  forallb (fun meal => negb (Js.truthy_opt (get meal))) meals.






(** The four checks of [validateImageFile]. *)
Definition acceptable (MAX_FILE_SIZE : float) (f : ImageValidator.File) : bool :=
  negb (PrimFloat.ltb MAX_FILE_SIZE (ImageValidator.size f))
  && ImageValidator.includesString ImageValidator.ALLOWED_MIME_TYPES (ImageValidator.type f)
  && ImageValidator.includesString ImageValidator.ALLOWED_EXTENSIONS
       (ImageValidator.extensionOf (ImageValidator.name f))
  && negb (255 <? Z.of_nat (String.length (ImageValidator.name f)))%Z.

(** Whether a string consists of the letters [a] to [z]. *)
Fixpoint allLowerAZ (s : string) : bool :=
  match s with
  | EmptyString => true
  | String c t => ImageValidator.isLowerAZ c && allLowerAZ t
  end.

(** Inputs used in the witnesses of the image checks. *)
Definition tenMegabytes : float := 10485760.

Definition noDigits (x : float) : string := EmptyString.

Definition photo : ImageValidator.File := ImageValidator.mkFile "Lunch.JPG" 204800 "image/jpeg".

(** * Properties *)

(** ** Numbers and strings *)

Lemma eqb_zero_not_truthy (x : float) :
  PrimFloat.eqb x 0 = true -> Js.truthy x = false.
Proof. intros H. unfold Js.truthy. now rewrite H. Qed.

Lemma eqb_zero_not_positive (x : float) :
  PrimFloat.eqb x 0 = true -> PrimFloat.ltb 0 x = false.
Proof.
  rewrite FloatAxioms.eqb_spec, FloatAxioms.ltb_spec.
  destruct (Prim2SF x) as [s | s | | s m e]; simpl;
    try discriminate; try reflexivity; destruct s; easy.
Qed.

(** Two numbers that [===] tells apart are different. *)
Lemma float_neq (x y : float) : PrimFloat.eqb x y = false -> PrimFloat.eqb y y = true -> x <> y.
Proof. intros Hxy Hy ->. rewrite Hy in Hxy. discriminate. Qed.

Lemma nan_neq (x : float) : PrimFloat.is_nan x = false -> nan <> x.
Proof. intros Hx <-. discriminate. Qed.

Lemma includes_empty (s : string) : Js.includes s "" = true.
Proof. destruct s; reflexivity. Qed.

Lemma length_plural (key : string) : String.length (key ++ "s") = S (String.length key).
Proof. induction key as [| c key IH]; [reflexivity | exact (f_equal S IH)]. Qed.

Lemma substring_last (key : string) :
  String.substring (String.length key) 1 (key ++ "s") = "s"%string.
Proof. induction key as [| c key IH]; [reflexivity | exact IH]. Qed.

Lemma substring_init (key : string) :
  String.substring 0 (String.length key) (key ++ "s") = key.
Proof.
  induction key as [| c key IH]; [reflexivity | exact (f_equal (String c) IH)].
Qed.

Lemma endsWith_plural (key : string) : Js.endsWith (key ++ "s") "s" = true.
Proof.
  unfold Js.endsWith. rewrite length_plural. cbn [String.length Nat.leb andb].
  replace (S (String.length key) - 1)%nat with (String.length key) by lia.
  now rewrite substring_last.
Qed.

Lemma dropLast_plural (key : string) : Js.dropLast (key ++ "s") = key.
Proof.
  unfold Js.dropLast. rewrite length_plural.
  replace (S (String.length key) - 1)%nat with (String.length key) by lia.
  apply substring_init.
Qed.

(** ** [calculateMetrics] and the self-referential initialiser *)

(** C1.  [calculateMetrics] does throw, and on every input: evaluating the
    initialiser of [fatAccuracy] reads that binding before it is
    initialised, which raises the [ReferenceError] recorded in the
    project's session notes.  No [EvaluationMetrics] record is returned. *)
Theorem calculateMetrics_throws (aiResult : AIAnalysisResult.t) (groundTruth : GroundTruth.t) :
  calculateMetrics aiResult groundTruth = Js.Throw fatAccuracy_TDZ.
Proof. reflexivity. Qed.

(** C2.  The [fatAccuracy] field is computed from its own binding: with
    the binding uninitialised, as it is when line 119 runs, the
    initialiser throws; its value would be [Math.max(0, 1 - x)] for a
    prior value [x].  So [calculateMetrics] produces no record whose
    [overallScore] could be compared with the weighted sum. *)
Theorem fatAccuracy_depends_on_itself :
  fatAccuracyInitializer Js.Uninitialized = Js.Throw fatAccuracy_TDZ
  /\ (forall x, fatAccuracyInitializer (Js.Initialized x) = Js.Normal (Js.Math_max 0 (1 - x)))
  /\ (forall aiResult groundTruth metrics,
        calculateMetrics aiResult groundTruth <> Js.Normal metrics).
Proof.
  split; [reflexivity | split; [reflexivity | ]].
  intros aiResult groundTruth metrics H. discriminate H.
Qed.

(** ** The true-positive pass *)

Lemma unclaimed_empty (k n : nat) : unclaimed ∅ k n = seq k n.
Proof.
  unfold unclaimed. induction (seq k n) as [| i l IH]; [reflexivity |].
  rewrite filter_cons, decide_True by set_solver. now rewrite IH.
Qed.

Lemma unclaimed_later (matched : gset nat) (j n : nat) :
  ∀ k, (j < k)%nat → unclaimed ({[j]} ∪ matched) k n = unclaimed matched k n.
Proof.
  unfold unclaimed. induction n as [| n IH]; intros k Hjk; [reflexivity |].
  cbn [seq]. rewrite !filter_cons, IH by lia.
  destruct (decide (k ∉ matched)) as [Hk | Hk].
  - rewrite decide_True; [reflexivity | set_solver by lia].
  - rewrite decide_False; [reflexivity | set_solver].
Qed.

Section MatchesEverything.

Variable detected : string.
Hypothesis matches_all : ∀ actual, foodsMatch detected actual = true.

Lemma claimActual_all (tp : Z) (matched : gset nat) (index : nat) (actual : string) :
  claimActual detected (tp, matched) (index, actual) =
    if bool_decide (index ∈ matched) then (tp, matched)
    else ((tp + 1)%Z, {[index]} ∪ matched).
Proof.
  unfold claimActual. rewrite matches_all. now destruct (bool_decide _).
Qed.

(** The inner loop from index [k] on: it claims every index that was
    still free. *)
Lemma scan_from (actualFoods : list string) :
  ∀ (k : nat) (tp : Z) (matched : gset nat),
    fold_left (claimActual detected) (imap (λ i actual, ((k + i)%nat, actual)) actualFoods)
      (tp, matched)
    = ((tp + Z.of_nat (length (unclaimed matched k (length actualFoods))))%Z,
       list_to_set (seq k (length actualFoods)) ∪ matched).
Proof.
  induction actualFoods as [| actual rest IH]; intros k tp matched.
  - cbn. f_equal; [lia | set_solver].
  - unfold unclaimed. cbn [imap fold_left length seq].
    rewrite Nat.add_0_r, claimActual_all, filter_cons.
    fold (unclaimed matched (S k) (length rest)).
    rewrite (imap_ext _ (λ i a, ((S k + i)%nat, a))) by (intros; cbn; f_equal; lia).
    case_bool_decide as Hin.
    + rewrite IH. rewrite decide_False by (intros Hn; contradiction).
      f_equal. set_solver.
    + rewrite IH, decide_True by assumption. rewrite unclaimed_later by lia.
      f_equal; [cbn [length]; lia | set_solver].
Qed.

Lemma scanActual_all (actualFoods : list string) (tp : Z) (matched : gset nat) :
  scanActual actualFoods (tp, matched) detected
  = ((tp + Z.of_nat (length (unclaimed matched 0 (length actualFoods))))%Z,
     list_to_set (seq 0 (length actualFoods)) ∪ matched).
Proof. unfold scanActual. apply (scan_from actualFoods 0). Qed.

End MatchesEverything.

(** C10.  A detected name that normalises to the empty string matches
    every ground-truth name, because every string includes the empty one.
    Its turn in the true-positive pass therefore claims every index that
    was still free: [truePositives] grows by their number and afterwards
    all of [actualFoods] is claimed.  When it is the only detected food,
    [truePositives] is the number of ground-truth foods. *)
Theorem empty_name_claims_every_actual (name : string) :
  normalizeFood name = ""%string ->
  (forall actual, foodsMatch name actual = true)
  /\ (forall actualFoods tp matchedActual,
        scanActual actualFoods (tp, matchedActual) (normalizeFood name)
        = ((tp + Z.of_nat (length (unclaimed matchedActual 0 (length actualFoods))))%Z,
           list_to_set (seq 0 (length actualFoods)) ∪ matchedActual))
  /\ (forall quantity unit confidence overall notes groundTruth,
        truePositives
          (AIAnalysisResult.mk [DetectedFood.mk name quantity unit confidence] overall notes)
          groundTruth
        = Z.of_nat (length (GroundTruth.foods groundTruth))).
Proof.
  intros Hname.
  assert (Hall : forall d, normalizeFood d = ""%string -> forall a, foodsMatch d a = true).
  { intros d Hd a. unfold foodsMatch. rewrite Hd.
    destruct (String.eqb _ _); [reflexivity |].
    now rewrite includes_empty, orb_true_r. }
  assert (Hnorm : forall a, foodsMatch (normalizeFood name) a = true).
  { apply Hall. now rewrite Hname. }
  split; [exact (Hall name Hname) | split].
  - intros actualFoods tp matchedActual. now apply scanActual_all.
  - intros quantity unit confidence overall notes groundTruth.
    unfold truePositives, matchFoods, detectedNames. cbn [AIAnalysisResult.foods map fold_left].
    rewrite scanActual_all by exact Hnorm. cbn [fst].
    rewrite unclaimed_empty, length_seq. unfold actualNames. rewrite length_map. lia.
Qed.

Lemma empty_name_claims_every_actual_witness :
  (forall actual, foodsMatch "  " actual = true)
  /\ (forall actualFoods tp matchedActual,
        scanActual actualFoods (tp, matchedActual) (normalizeFood "  ")
        = ((tp + Z.of_nat (length (unclaimed matchedActual 0 (length actualFoods))))%Z,
           list_to_set (seq 0 (length actualFoods)) ∪ matchedActual))
  /\ (forall quantity unit confidence overall notes groundTruth,
        truePositives
          (AIAnalysisResult.mk [DetectedFood.mk "  " quantity unit confidence] overall notes)
          groundTruth
        = Z.of_nat (length (GroundTruth.foods groundTruth))).
Proof. exact (empty_name_claims_every_actual "  " eq_refl). Defined.

(** C3.  The inner [forEach] has no way to stop at the first match, so one
    detected name claims every free ground-truth name that it matches:
    "rice" against "fried rice" and "rice pudding" gives two true
    positives for one detected food, minus one false positive, and a
    precision of 2. *)
Theorem one_detected_food_claims_two :
  length (AIAnalysisResult.foods rice_only) = 1%nat
  /\ matchFoods (detectedNames rice_only) (actualNames two_rice_dishes) = (2%Z, {[0%nat; 1%nat]})
  /\ truePositives rice_only two_rice_dishes = 2%Z
  /\ falsePositives rice_only two_rice_dishes = (-1)%Z
  /\ precision rice_only two_rice_dishes = 2.
Proof.
  assert (H : matchFoods (detectedNames rice_only) (actualNames two_rice_dishes)
              = (2%Z, {[0%nat; 1%nat]})).
  { vm_compute. reflexivity. }
  unfold precision, falsePositives, truePositives. rewrite H.
  repeat split; reflexivity.
Qed.

(** What the pass does guarantee: an index is claimed at most once, so
    [truePositives] counts the claimed indices and never exceeds the number
    of ground-truth foods. *)
Lemma claimActual_countsClaimed (n : nat) (detected : string) (st : matchState)
    (entry : nat * string) :
  countsClaimed n st -> (fst entry < n)%nat -> countsClaimed n (claimActual detected st entry).
Proof.
  destruct st as [tp matched], entry as [index actual]. intros [Htp Hlt] Hindex.
  unfold countsClaimed, claimActual. case_bool_decide as Hin; cbn [negb andb]; [now split |].
  destruct (foodsMatch detected actual); [| now split].
  cbn [fst snd] in *. split.
  - rewrite size_union by set_solver. rewrite size_singleton. lia.
  - intros i Hi. apply elem_of_union in Hi as [Hi | Hi]; [| now apply Hlt].
    apply elem_of_singleton in Hi. now subst i.
Qed.

Lemma indexed_in_range (actualFoods : list string) :
  forall k, Forall (fun entry => (fst entry < k + length actualFoods)%nat)
              (imap (λ i actual, ((k + i)%nat, actual)) actualFoods).
Proof.
  induction actualFoods as [| actual rest IH]; intros k; cbn [imap]; constructor.
  - cbn. lia.
  - rewrite (imap_ext _ (λ i a, ((S k + i)%nat, a))) by (intros; cbn; f_equal; lia).
    eapply Forall_impl; [apply (IH (S k)) |]. intros entry H. cbn in *. lia.
Qed.

Lemma fold_countsClaimed (n : nat) (detected : string) (entries : list (nat * string)) :
  Forall (fun entry => (fst entry < n)%nat) entries ->
  forall st, countsClaimed n st -> countsClaimed n (fold_left (claimActual detected) entries st).
Proof.
  induction 1 as [| entry entries Hentry _ IH]; intros st Hst; [exact Hst |].
  cbn [fold_left]. apply IH. now apply claimActual_countsClaimed.
Qed.

Lemma matchFoods_countsClaimed (detectedFoods actualFoods : list string) :
  countsClaimed (length actualFoods) (matchFoods detectedFoods actualFoods).
Proof.
  unfold matchFoods.
  assert (H0 : countsClaimed (length actualFoods) (0%Z, ∅ : gset nat)).
  { split; [reflexivity | set_solver]. }
  revert H0. generalize (0%Z, ∅ : gset nat).
  induction detectedFoods as [| detected rest IH]; intros st Hst; [exact Hst |].
  cbn [fold_left]. apply IH. unfold scanActual.
  apply fold_countsClaimed; [apply (indexed_in_range actualFoods 0) | exact Hst].
Qed.

Lemma truePositives_bounds (aiResult : AIAnalysisResult.t) (groundTruth : GroundTruth.t) :
  (0 <= truePositives aiResult groundTruth <= Z.of_nat (length (GroundTruth.foods groundTruth)))%Z.
Proof.
  unfold truePositives.
  destruct (matchFoods_countsClaimed (detectedNames aiResult) (actualNames groundTruth))
    as [Htp Hlt].
  rewrite Htp. split; [lia |]. apply inj_le.
  unfold actualNames in Hlt. rewrite length_map in Hlt.
  set (n := length (GroundTruth.foods groundTruth)) in *.
  apply Nat.le_trans with (size (list_to_set (seq 0 n) : gset nat)).
  - apply subseteq_size. intros i Hi. apply elem_of_list_to_set, elem_of_seq.
    specialize (Hlt i Hi). lia.
  - rewrite size_list_to_set by apply NoDup_seq. now rewrite length_seq.
Qed.

(** ** [calculateNutritionAccuracy] *)

Lemma accuracy_of_nutrient (ai gt : float) :
  accuracy_as_specified ai gt
    (Js.Math_max 0 (1 - (if PrimFloat.ltb 0 gt then Js.Math_abs (ai - gt) / gt else 0))).
Proof.
  split; intros H.
  - now rewrite H.
  - now rewrite (eqb_zero_not_positive _ H).
Qed.

(** C5.  Each of the four accuracies of [calculateNutritionAccuracy] is
    [max(0, 1 - error)] with error [|ai - gt| / gt] when [gt > 0] and [0]
    when [gt = 0]; 500 kcal against a ground truth of 400 kcal gives a
    calorie accuracy of 0.75. *)
Theorem calculateNutritionAccuracy_spec :
  (forall aiTotals groundTruth,
      let result := calculateNutritionAccuracy aiTotals groundTruth in
      accuracy_as_specified (AiTotals.calories aiTotals)
        (GroundTruth.totalCalories groundTruth) (NutritionAccuracy.calorieAccuracy result)
      /\ accuracy_as_specified (AiTotals.protein aiTotals)
           (GroundTruth.totalProtein groundTruth) (NutritionAccuracy.proteinAccuracy result)
      /\ accuracy_as_specified (AiTotals.carbs aiTotals)
           (GroundTruth.totalCarbs groundTruth) (NutritionAccuracy.carbsAccuracy result)
      /\ accuracy_as_specified (AiTotals.fat aiTotals)
           (GroundTruth.totalFat groundTruth) (NutritionAccuracy.fatAccuracy result))
  /\ (forall protein carbs fat foods totalProtein totalCarbs totalFat,
        NutritionAccuracy.calorieAccuracy
          (calculateNutritionAccuracy
             (AiTotals.mk 500 protein carbs fat)
             (GroundTruth.mk foods 400 totalProtein totalCarbs totalFat)) = 0.75).
Proof.
  split.
  - intros aiTotals groundTruth result.
    repeat apply conj; apply accuracy_of_nutrient.
  - reflexivity.
Qed.

Lemma calculateNutritionAccuracy_spec_witness :
  let result :=
    calculateNutritionAccuracy (AiTotals.mk 500 30 40 20) (GroundTruth.mk [] 400 0 50 25) in
  NutritionAccuracy.calorieAccuracy result = Js.Math_max 0 (1 - Js.Math_abs (500 - 400) / 400)
  /\ NutritionAccuracy.proteinAccuracy result = Js.Math_max 0 (1 - 0).
Proof.
  pose proof (proj1 calculateNutritionAccuracy_spec
                (AiTotals.mk 500 30 40 20) (GroundTruth.mk [] 400 0 50 25)) as H.
  exact (conj (proj1 (proj1 H) eq_refl) (proj2 (proj1 (proj2 H)) eq_refl)).
Defined.

(** ** [aggregateMetrics] *)

(** C8.  On an empty list every [avg] is [0 / 0]: all eleven fields of the
    aggregate are [NaN], and the record is not the all-zero one. *)
Theorem aggregateMetrics_empty :
  avg [] = 0 / 0
  /\ aggregateMetrics [] = EvaluationMetrics.mk nan nan nan nan nan nan nan nan nan nan nan
  /\ aggregateMetrics [] <> EvaluationMetrics.mk 0 0 0 0 0 0 0 0 0 0 0.
Proof.
  split; [reflexivity | split; [reflexivity | ]].
  intros H. apply (f_equal EvaluationMetrics.precision) in H.
  revert H. apply nan_neq. reflexivity.
Qed.

(** ** [convertToGrams] *)

Lemma entries_NoDup : NoDup (SERVING_CONVERSIONS_entries.*1).
Proof. apply (bool_decide_unpack _). vm_compute. reflexivity. Qed.

Lemma SERVING_CONVERSIONS_lookup (key : string) (factor : float) :
  SERVING_CONVERSIONS !! key = Some factor ↔ (key, factor) ∈ SERVING_CONVERSIONS_entries.
Proof. symmetry. apply elem_of_list_to_map, entries_NoDup. Qed.

(** One goal per entry of the table. *)
Ltac each_entry H :=
  unfold SERVING_CONVERSIONS_entries in H;
  repeat (apply elem_of_cons in H; destruct H as [H | H]; [injection H as -> -> |]);
  [.. | now apply elem_of_nil in H].

Lemma factor_truthy (key : string) (factor : float) :
  (key, factor) ∈ SERVING_CONVERSIONS_entries → Js.truthy factor = true.
Proof. intros H. each_entry H; reflexivity. Qed.

Lemma zero_times_factor (key : string) (factor : float) :
  (key, factor) ∈ SERVING_CONVERSIONS_entries → 0 * factor = 0.
Proof. intros H. each_entry H; reflexivity. Qed.

Lemma no_key_ends_in_s (key : string) (factor : float) :
  (key, factor) ∈ SERVING_CONVERSIONS_entries →
  Js.get SERVING_CONVERSIONS (key ++ "s") = Js.Undefined.
Proof. intros H. each_entry H; reflexivity. Qed.

(** X11.  A unit whose lower-cased, trimmed form is a key of the table is
    converted with that key's factor. *)
Lemma convertToGrams_table (quantity : float) (unit key : string) (factor : float) :
  (key, factor) ∈ SERVING_CONVERSIONS_entries →
  Js.trim (Js.toLowerCase unit) = key →
  convertToGrams quantity unit = quantity * factor.
Proof.
  intros Hin Hunit. unfold convertToGrams. rewrite Hunit. unfold Js.get.
  rewrite (proj2 (SERVING_CONVERSIONS_lookup key factor) Hin). cbn.
  now rewrite (factor_truthy key factor Hin).
Qed.

(** X12.  The plural of a key (the key followed by [s]) is converted
    with the key's factor. *)
Lemma convertToGrams_plural (quantity : float) (unit key : string) (factor : float) :
  (key, factor) ∈ SERVING_CONVERSIONS_entries →
  Js.trim (Js.toLowerCase unit) = (key ++ "s")%string →
  convertToGrams quantity unit = quantity * factor.
Proof.
  intros Hin Hunit. unfold convertToGrams. rewrite Hunit.
  rewrite (no_key_ends_in_s key factor Hin). cbn [Js.ToBoolean].
  rewrite endsWith_plural, dropLast_plural. unfold Js.get.
  rewrite (proj2 (SERVING_CONVERSIONS_lookup key factor) Hin). cbn.
  now rewrite (factor_truthy key factor Hin).
Qed.

(** When both reads give [undefined], the fallback is 100 g per unit. *)
Lemma convertToGrams_unknown (quantity : float) (unit : string) :
  let normalizedUnit := Js.trim (Js.toLowerCase unit) in
  Js.get SERVING_CONVERSIONS normalizedUnit = Js.Undefined →
  (Js.endsWith normalizedUnit "s" = true →
   Js.get SERVING_CONVERSIONS (Js.dropLast normalizedUnit) = Js.Undefined) →
  convertToGrams quantity unit = quantity * 100.
Proof.
  intros normalizedUnit H1 H2. unfold convertToGrams. fold normalizedUnit.
  rewrite H1. cbn [Js.ToBoolean].
  destruct (Js.endsWith normalizedUnit "s"); [rewrite H2 by reflexivity |]; reflexivity.
Qed.

Lemma zero_times_own (key : string) :
  Js.get SERVING_CONVERSIONS key ≠ Js.Inherited →
  Js.ToBoolean (Js.get SERVING_CONVERSIONS key) = true →
  0 * Js.ToNumber (Js.get SERVING_CONVERSIONS key) = 0.
Proof.
  unfold Js.get. destruct (SERVING_CONVERSIONS !! key) as [factor |] eqn:E.
  - intros _ _. apply SERVING_CONVERSIONS_lookup in E. exact (zero_times_factor _ _ E).
  - destruct (existsb _ _); [congruence | discriminate].
Qed.

(** A quantity of zero is zero grams, as long as neither read reaches a
    property inherited from [Object.prototype]. *)
Lemma convertToGrams_zero (unit : string) :
  let normalizedUnit := Js.trim (Js.toLowerCase unit) in
  Js.get SERVING_CONVERSIONS normalizedUnit ≠ Js.Inherited →
  Js.get SERVING_CONVERSIONS (Js.dropLast normalizedUnit) ≠ Js.Inherited →
  convertToGrams 0 unit = 0.
Proof.
  intros normalizedUnit H1 H2. unfold convertToGrams. fold normalizedUnit.
  destruct (Js.ToBoolean (Js.get SERVING_CONVERSIONS normalizedUnit)) eqn:E1.
  - now apply zero_times_own.
  - destruct (Js.endsWith normalizedUnit "s"); [| reflexivity].
    destruct (Js.ToBoolean (Js.get SERVING_CONVERSIONS (Js.dropLast normalizedUnit))) eqn:E2.
    + now apply zero_times_own.
    + reflexivity.
Qed.

(** C4.  The table is an object literal, and a read of a key that it does
    not own goes on to [Object.prototype].  The unit "constructor" is not
    in the table, yet the read gives the function [Object], which is
    truthy: the product is [NaN], for a quantity of zero too, instead of
    the fallback of 100 g per unit. *)
Theorem convertToGrams_constructor :
  SERVING_CONVERSIONS !! "constructor"%string = None
  /\ Js.get SERVING_CONVERSIONS "constructor" = Js.Inherited
  /\ convertToGrams 0 "constructor" = nan
  /\ convertToGrams 0 "constructor" <> 0
  /\ (forall quantity, convertToGrams quantity "constructor" = quantity * nan).
Proof.
  assert (H : convertToGrams 0 "constructor" = nan) by reflexivity.
  repeat apply conj; try reflexivity.
  rewrite H. now apply nan_neq.
Qed.

(** ** [calculateMacroPercentages] *)

(** C6, as stated, fails: with zero calories the denominator is 1, so
    10 g of protein read as 4000 percent, not 0. *)
Lemma zero_calories_percent_not_zero :
  ~ (forall nutrition,
       PrimFloat.eqb (NutritionData.calories nutrition) 0 = true ->
       calculateMacroPercentages nutrition = MacroPercentages.mk 0 0 0).
Proof.
  intros H.
  specialize (H (NutritionData.mk 0 10 0 0 None None None) eq_refl).
  apply (f_equal MacroPercentages.proteinPercent) in H. vm_compute in H.
  revert H. now apply float_neq.
Qed.

(** C6, amended.  When [calories] is zero the denominator is 1, and each
    percentage is the rounding of the macro's calories, divided by 1,
    times 100. *)
Theorem calculateMacroPercentages_zero_calories (nutrition : NutritionData.t) :
  PrimFloat.eqb (NutritionData.calories nutrition) 0 = true ->
  Js.or_else (NutritionData.calories nutrition) 1 = 1
  /\ calculateMacroPercentages nutrition =
       {| MacroPercentages.proteinPercent :=
            Js.Math_round ((NutritionData.protein nutrition * 4) / 1 * 100);
          MacroPercentages.carbsPercent :=
            Js.Math_round ((NutritionData.carbs nutrition * 4) / 1 * 100);
          MacroPercentages.fatPercent :=
            Js.Math_round ((NutritionData.fat nutrition * 9) / 1 * 100) |}.
Proof.
  intros H. unfold calculateMacroPercentages, Js.or_else.
  rewrite (eqb_zero_not_truthy _ H). split; reflexivity.
Qed.

Lemma calculateMacroPercentages_zero_calories_witness :
  Js.or_else 0 1 = 1
  /\ calculateMacroPercentages (NutritionData.mk 0 10 0 0 None None None)
     = MacroPercentages.mk 4000 0 0.
Proof.
  exact (calculateMacroPercentages_zero_calories
           (NutritionData.mk 0 10 0 0 None None None) eq_refl).
Defined.

(** ** [estimateGramsFromDescription] *)

(** C7, as stated, fails: "entire" is none of the listed keywords, yet one
    "entire" item is estimated at 150 g, not 100 g. *)
Lemma entire_is_a_keyword :
  ~ (forall description quantity,
       PrimFloat.ltb 0 quantity = true ->
       estimateGramsFromDescription description quantity
       = quantity * firstKeywordWeight keywords_as_specified (Js.toLowerCase description)).
Proof.
  intros H. specialize (H "entire"%string 1 eq_refl). vm_compute in H.
  revert H. now apply float_neq.
Qed.

(** C7, amended.  The estimate is the quantity times the weight of the
    first keyword that the lower-cased text contains, in the order of the
    code's table, where "entire" stands beside "whole" at 150 g; it is the
    quantity times 100 when the text contains none of them. *)
Theorem estimateGramsFromDescription_first_keyword (description : string) (quantity : float) :
  estimateGramsFromDescription description quantity
  = quantity * firstKeywordWeight keywords_of_code (Js.toLowerCase description).
Proof.
  unfold estimateGramsFromDescription, firstKeywordWeight, keywords_of_code.
  cbn [find fst snd].
  repeat (destruct (Js.includes (Js.toLowerCase description) _); cbn [orb]; try reflexivity).
Qed.

(** ** Optional nutrients that are zero *)

Lemma scaleOptional_zero (x : option float) (scaleFactor : float) :
  zeroOrAbsent x -> scaleOptional x scaleFactor = None.
Proof.
  intros [-> | (z & -> & Hz)]; [reflexivity |].
  cbn. now rewrite (eqb_zero_not_truthy _ Hz).
Qed.

(** A total to which only absent values are added stays [+0]. *)
Lemma add_absent (total : float) : total = 0 -> Js.or_else total 0 + Js.opt_or_else None 0 = 0.
Proof. now intros ->. Qed.

Ltac zero_total_by_induction items :=
  induction items as [| item items IH]; intros acc Hacc Hitems; [exact Hacc |];
  inversion Hitems as [| ? ? Hitem Hrest]; subst;
  cbn [fold_left]; apply IH; [| exact Hrest];
  unfold addServing, addNutrition, calculateNutritionForServing; cbn;
  rewrite (scaleOptional_zero _ _ Hitem); now apply add_absent.

Lemma fold_fiber_zero (items : list FoodItemWithServing.t) :
  forall acc,
    Totals.fiber acc = 0 ->
    Forall (fun item => zeroOrAbsent (FoodItem.fiber (FoodItemWithServing.item item))) items ->
    Totals.fiber (fold_left addServing items acc) = 0.
Proof. zero_total_by_induction items. Qed.

Lemma fold_sugar_zero (items : list FoodItemWithServing.t) :
  forall acc,
    Totals.sugar acc = 0 ->
    Forall (fun item => zeroOrAbsent (FoodItem.sugar (FoodItemWithServing.item item))) items ->
    Totals.sugar (fold_left addServing items acc) = 0.
Proof. zero_total_by_induction items. Qed.

Lemma fold_sodium_zero (items : list FoodItemWithServing.t) :
  forall acc,
    Totals.sodium acc = 0 ->
    Forall (fun item => zeroOrAbsent (FoodItem.sodium (FoodItemWithServing.item item))) items ->
    Totals.sodium (fold_left addServing items acc) = 0.
Proof. zero_total_by_induction items. Qed.

(** C9, as stated, fails: an output field of an optional nutrient can be
    the number 0.  A serving of 0 g of a food whose fiber column is 5
    gives [fiber: 0], since the column is truthy and the scale factor is
    0; and a fiber total of 0.03 is positive, so it is kept, and rounded
    to [fiber: 0]. *)
Lemma optional_field_can_be_zero :
  ~ (forall foodItem serving,
       isNumberZero (NutritionData.fiber (calculateNutritionForServing foodItem serving))
       = false)
  /\ ~ (forall items,
          isNumberZero (NutritionData.fiber (calculateTotalNutrition items)) = false).
Proof.
  split; intros H.
  - specialize (H oats no_serving). vm_compute in H. discriminate.
  - specialize (H [FoodItemWithServing.mk broth hundred_grams]). vm_compute in H.
    discriminate.
Qed.

(** C9, amended.  [calculateNutritionForServing] tests the optional column
    itself, so a column that is present and zero comes out absent,
    whatever the serving.  [calculateTotalNutrition] keeps an optional field only when
    its total is positive, so a total of zero comes out absent; this is
    the case whenever the column is zero or absent in every item. *)
Theorem known_zero_optional_is_absent :
  (forall foodItem serving,
      let nutrition := calculateNutritionForServing foodItem serving in
      (knownZero (FoodItem.fiber foodItem) -> NutritionData.fiber nutrition = None)
      /\ (knownZero (FoodItem.sugar foodItem) -> NutritionData.sugar nutrition = None)
      /\ (knownZero (FoodItem.sodium foodItem) -> NutritionData.sodium nutrition = None))
  /\ (forall items,
        let totals := sumServings items in
        let nutrition := calculateTotalNutrition items in
        (PrimFloat.eqb (Totals.fiber totals) 0 = true -> NutritionData.fiber nutrition = None)
        /\ (PrimFloat.eqb (Totals.sugar totals) 0 = true -> NutritionData.sugar nutrition = None)
        /\ (PrimFloat.eqb (Totals.sodium totals) 0 = true
            -> NutritionData.sodium nutrition = None))
  /\ (forall items,
        let column get :=
          Forall (fun item => zeroOrAbsent (get (FoodItemWithServing.item item))) items in
        let nutrition := calculateTotalNutrition items in
        (column FoodItem.fiber -> NutritionData.fiber nutrition = None)
        /\ (column FoodItem.sugar -> NutritionData.sugar nutrition = None)
        /\ (column FoodItem.sodium -> NutritionData.sodium nutrition = None)).
Proof.
  split; [| split].
  - intros foodItem serving nutrition.
    repeat apply conj; intros H; apply scaleOptional_zero; now right.
  - intros items totals nutrition. subst totals nutrition.
    unfold calculateTotalNutrition, roundTotals. cbn.
    repeat apply conj; intros H; now rewrite (eqb_zero_not_positive _ H).
  - intros items column nutrition. subst column nutrition.
    unfold calculateTotalNutrition, roundTotals, sumServings. cbn.
    repeat apply conj; intros H.
    + now rewrite (fold_fiber_zero items Totals.zero eq_refl H).
    + now rewrite (fold_sugar_zero items Totals.zero eq_refl H).
    + now rewrite (fold_sodium_zero items Totals.zero eq_refl H).
Qed.

Lemma known_zero_optional_is_absent_witness :
  NutritionData.fiber (calculateNutritionForServing apple one_medium) = None
  /\ NutritionData.fiber
       (calculateTotalNutrition [FoodItemWithServing.mk apple one_medium]) = None.
Proof.
  assert (Hzero : knownZero (FoodItem.fiber apple)).
  { exists 0. split; reflexivity. }
  split.
  - exact (proj1 (proj1 known_zero_optional_is_absent apple one_medium) Hzero).
  - apply (proj1 (proj2 (proj2 known_zero_optional_is_absent)
                    [FoodItemWithServing.mk apple one_medium])).
    constructor; [right; exact Hzero | constructor].
Defined.

(** * Further properties of the code

    The properties below are read off the source; each states what the
    code does, for the functions of the two files above and for their
    callers. *)

(** ** Normalisation of names and units *)

(** One goal per code unit. *)
Ltac each_code_unit c := destruct c as [[] [] [] [] [] [] [] []].

Lemma lowerChar_idem (c : ascii) : Js.lowerChar (Js.lowerChar c) = Js.lowerChar c.
Proof. each_code_unit c; reflexivity. Qed.

Lemma isWhiteSpace_lowerChar (c : ascii) : Js.isWhiteSpace (Js.lowerChar c) = Js.isWhiteSpace c.
Proof. each_code_unit c; reflexivity. Qed.

Lemma toLowerCase_idem (s : string) : Js.toLowerCase (Js.toLowerCase s) = Js.toLowerCase s.
Proof. induction s as [| c s IH]; cbn; [reflexivity | now rewrite lowerChar_idem, IH]. Qed.

Lemma toLowerCase_trimStart (s : string) :
  Js.toLowerCase (Js.trimStart s) = Js.trimStart (Js.toLowerCase s).
Proof.
  induction s as [| c s IH]; [reflexivity |]. cbn.
  rewrite isWhiteSpace_lowerChar. now destruct (Js.isWhiteSpace c).
Qed.

Lemma toLowerCase_trimEnd (s : string) :
  Js.toLowerCase (Js.trimEnd s) = Js.trimEnd (Js.toLowerCase s).
Proof.
  induction s as [| c s IH]; [reflexivity |]. cbn.
  rewrite <- IH, isWhiteSpace_lowerChar.
  destruct (Js.trimEnd s); [now destruct (Js.isWhiteSpace c) | reflexivity].
Qed.

Lemma toLowerCase_trim (s : string) : Js.toLowerCase (Js.trim s) = Js.trim (Js.toLowerCase s).
Proof. unfold Js.trim. now rewrite toLowerCase_trimEnd, toLowerCase_trimStart. Qed.

Lemma toLowerCase_replaceRuns (s : string) :
  forall inRun, Js.toLowerCase (Js.replaceRuns inRun s) = Js.replaceRuns inRun (Js.toLowerCase s).
Proof.
  induction s as [| c s IH]; intros inRun; [reflexivity |]. cbn.
  rewrite isWhiteSpace_lowerChar.
  destruct (Js.isWhiteSpace c), inRun; cbn; now rewrite IH.
Qed.

(** A string that [trimStart] / [trimEnd] leaves alone. *)
Lemma trimStart_idem (s : string) : Js.trimStart (Js.trimStart s) = Js.trimStart s.
Proof.
  induction s as [| c s IH]; [reflexivity |]. cbn.
  destruct (Js.isWhiteSpace c) eqn:E; [exact IH | cbn; now rewrite E].
Qed.

Lemma trimEnd_cons (c : ascii) (s : string) :
  Js.trimEnd (String c s) =
    match Js.trimEnd s with
    | EmptyString => if Js.isWhiteSpace c then EmptyString else String c EmptyString
    | t => String c t
    end.
Proof. reflexivity. Qed.

Lemma trimEnd_idem (s : string) : Js.trimEnd (Js.trimEnd s) = Js.trimEnd s.
Proof.
  induction s as [| c s IH]; [reflexivity |]. rewrite trimEnd_cons.
  destruct (Js.trimEnd s) as [| c' t'] eqn:E.
  - destruct (Js.isWhiteSpace c) eqn:Ec; [reflexivity | cbn; now rewrite Ec].
  - rewrite trimEnd_cons, IH. reflexivity.
Qed.

Lemma trimStart_trimEnd (s : string) :
  Js.trimStart s = s -> Js.trimStart (Js.trimEnd s) = Js.trimEnd s.
Proof.
  destruct s as [| c s]; [reflexivity |]. cbn.
  destruct (Js.isWhiteSpace c) eqn:Ec.
  - intros H. exfalso. apply (f_equal String.length) in H. cbn in H.
    assert (Hle : forall t, (String.length (Js.trimStart t) <= String.length t)%nat).
    { induction t as [| d t IHt]; cbn; [lia |]. destruct (Js.isWhiteSpace d); cbn; lia. }
    specialize (Hle s). lia.
  - intros _. destruct (Js.trimEnd s); cbn; now rewrite Ec.
Qed.

Lemma trim_idem (s : string) : Js.trim (Js.trim s) = Js.trim s.
Proof.
  unfold Js.trim. rewrite trimStart_trimEnd by apply trimStart_idem. apply trimEnd_idem.
Qed.

Lemma trimStart_trim (s : string) : Js.trimStart (Js.trim s) = Js.trim s.
Proof. unfold Js.trim. apply trimStart_trimEnd, trimStart_idem. Qed.

Lemma trimEnd_trim (s : string) : Js.trimEnd (Js.trim s) = Js.trim s.
Proof. unfold Js.trim. apply trimEnd_idem. Qed.

Lemma replaceRuns_idem (s : string) :
  Js.replaceRuns false (Js.replaceRuns false s) = Js.replaceRuns false s
  /\ Js.replaceRuns true (Js.replaceRuns true s) = Js.replaceRuns true s
  /\ Js.replaceRuns false (Js.replaceRuns true s) = Js.replaceRuns true s.
Proof.
  induction s as [| c s (IHff & IHtt & IHft)]; [repeat split |].
  cbn. destruct (Js.isWhiteSpace c) eqn:Ec.
  - repeat split; try assumption. cbn. now rewrite IHtt.
  - cbn. rewrite Ec, IHff. repeat split.
Qed.

Lemma replaceRuns_empty (s : string) :
  forall inRun, Js.replaceRuns inRun s = EmptyString -> Js.trimEnd s = EmptyString.
Proof.
  induction s as [| c s IH]; intros inRun; [reflexivity |]. cbn.
  destruct (Js.isWhiteSpace c), inRun; try discriminate.
  intros H. now rewrite (IH true H).
Qed.

Lemma trimStart_replaceRuns (s : string) :
  Js.trimStart s = s -> Js.trimStart (Js.replaceRuns false s) = Js.replaceRuns false s.
Proof.
  destruct s as [| c s]; [reflexivity |]. cbn.
  destruct (Js.isWhiteSpace c) eqn:Ec.
  - intros H. exfalso. apply (f_equal String.length) in H. cbn in H.
    assert (Hle : forall t, (String.length (Js.trimStart t) <= String.length t)%nat).
    { induction t as [| d t IHt]; cbn; [lia |]. destruct (Js.isWhiteSpace d); cbn; lia. }
    specialize (Hle s). lia.
  - intros _. cbn. now rewrite Ec.
Qed.

Lemma trimEnd_replaceRuns (s : string) :
  Js.trimEnd s = s ->
  forall inRun, Js.trimEnd (Js.replaceRuns inRun s) = Js.replaceRuns inRun s.
Proof.
  induction s as [| c s IH]; intros Hs inRun; [reflexivity |].
  cbn in Hs. destruct (Js.trimEnd s) as [| c' t'] eqn:Et.
  - destruct (Js.isWhiteSpace c) eqn:Ec; [discriminate |].
    injection Hs as <-. cbn. rewrite Ec. cbn. now rewrite Ec.
  - injection Hs as Hs. specialize (IH Hs).
    cbn. destruct (Js.isWhiteSpace c) eqn:Ec.
    + assert (Hne : Js.replaceRuns true s <> EmptyString).
      { intros H. apply replaceRuns_empty in H. congruence. }
      destruct inRun; [apply IH |].
      cbn. rewrite (IH true).
      destruct (Js.replaceRuns true s); [contradiction | reflexivity].
    + cbn. rewrite (IH false), Ec.
      now destruct (Js.replaceRuns false s).
Qed.

Lemma trim_collapse_trim (s : string) :
  Js.trim (Js.collapseWhiteSpace (Js.trim s)) = Js.collapseWhiteSpace (Js.trim s).
Proof.
  unfold Js.collapseWhiteSpace. unfold Js.trim at 1.
  rewrite trimStart_replaceRuns by apply trimStart_trim.
  apply trimEnd_replaceRuns, trimEnd_trim.
Qed.

Lemma normalizeFood_idem (name : string) : normalizeFood (normalizeFood name) = normalizeFood name.
Proof.
  unfold normalizeFood, Js.collapseWhiteSpace.
  rewrite toLowerCase_replaceRuns, toLowerCase_trim, toLowerCase_idem.
  fold (Js.collapseWhiteSpace (Js.trim (Js.toLowerCase name))).
  rewrite trim_collapse_trim. unfold Js.collapseWhiteSpace.
  apply replaceRuns_idem.
Qed.

Lemma foodsMatch_refl (food : string) : foodsMatch food food = true.
Proof. unfold foodsMatch. now rewrite String.eqb_refl. Qed.

Lemma foodsMatch_sym (food1 food2 : string) : foodsMatch food1 food2 = foodsMatch food2 food1.
Proof.
  unfold foodsMatch. rewrite (String.eqb_sym (normalizeFood food1)).
  now rewrite (orb_comm (Js.includes (normalizeFood food1) _)).
Qed.

Lemma foodsMatch_normalized (food1 food2 : string) :
  foodsMatch (normalizeFood food1) (normalizeFood food2) = foodsMatch food1 food2.
Proof. unfold foodsMatch. now rewrite !normalizeFood_idem. Qed.

Lemma trim_toLowerCase_trim (s : string) :
  Js.trim (Js.toLowerCase (Js.trim s)) = Js.trim (Js.toLowerCase s).
Proof. now rewrite toLowerCase_trim, trim_idem. Qed.

(** X1.  [normalizeFood] is idempotent, so the two normalisations that a
    name goes through in [calculateMetrics] (once when the name lists are
    built, once more inside [foodsMatch]) give the verdict that
    [foodsMatch] gives on the names as written. *)
Theorem normalizeFood_idempotent (name other : string) :
  normalizeFood (normalizeFood name) = normalizeFood name
  /\ foodsMatch (normalizeFood name) (normalizeFood other) = foodsMatch name other.
Proof. split; [apply normalizeFood_idem | apply foodsMatch_normalized]. Qed.

(** X2.  [foodsMatch] is reflexive and symmetric: a name matches itself,
    and the order of the two names does not matter. *)
Theorem foodsMatch_reflexive_symmetric (food1 food2 : string) :
  foodsMatch food1 food1 = true
  /\ foodsMatch food1 food2 = foodsMatch food2 food1.
Proof. split; [apply foodsMatch_refl | apply foodsMatch_sym]. Qed.

(** X3.  Trimming a unit or a name beforehand, as [analyzeMealImage] does
    with what the model returns, changes neither the gram conversion nor
    the normalised name nor a match. *)
Theorem trimmed_inputs_unchanged (quantity : float) (unit name other : string) :
  convertToGrams quantity (Js.trim unit) = convertToGrams quantity unit
  /\ normalizeFood (Js.trim name) = normalizeFood name
  /\ foodsMatch (Js.trim name) other = foodsMatch name other.
Proof.
  assert (Hn : normalizeFood (Js.trim name) = normalizeFood name).
  { unfold normalizeFood. now rewrite trim_toLowerCase_trim. }
  repeat split.
  - unfold convertToGrams. now rewrite trim_toLowerCase_trim.
  - exact Hn.
  - unfold foodsMatch. now rewrite Hn.
Qed.

(** X4.  Units, descriptions and names are compared without regard to
    case: lower-casing the input beforehand changes nothing. *)
Theorem case_insensitive (quantity : float) (unit description name other : string) :
  convertToGrams quantity (Js.toLowerCase unit) = convertToGrams quantity unit
  /\ estimateGramsFromDescription (Js.toLowerCase description) quantity
     = estimateGramsFromDescription description quantity
  /\ foodsMatch (Js.toLowerCase name) other = foodsMatch name other.
Proof.
  repeat split.
  - unfold convertToGrams. now rewrite toLowerCase_idem.
  - unfold estimateGramsFromDescription. now rewrite toLowerCase_idem.
  - unfold foodsMatch, normalizeFood. now rewrite toLowerCase_idem.
Qed.

(** ** What the true-positive pass counts *)

Lemma scan_membership (detected : string) (actualFoods : list string) :
  forall (k : nat) (st : matchState) (j : nat),
    j ∈ snd (fold_left (claimActual detected)
               (imap (λ i actual, ((k + i)%nat, actual)) actualFoods) st)
    ↔ j ∈ snd st ∨ claimedBy detected actualFoods k j.
Proof.
  induction actualFoods as [| actual rest IH]; intros k st j.
  - cbn. split; [now left |]. intros [H | (_ & a & H & _)]; [exact H | discriminate].
  - cbn [imap fold_left]. rewrite Nat.add_0_r.
    rewrite (imap_ext _ (λ i a, ((S k + i)%nat, a))) by (intros; cbn; f_equal; lia).
    rewrite IH. clear IH. destruct st as [tp matched]. unfold claimActual, claimedBy.
    assert (Hshift : forall a, (S k <= j)%nat ->
              rest !! (j - S k)%nat = Some a <-> (actual :: rest) !! (j - k)%nat = Some a).
    { intros a Hle. replace (j - k)%nat with (S (j - S k)) by lia. reflexivity. }
    split.
    + intros [H | (Hle & a & Hlook & Hm)].
      * destruct (negb _ && _) eqn:E; cbn [snd] in H.
        -- apply elem_of_union in H as [H | H]; [| now left].
           apply elem_of_singleton in H. subst j. right. split; [lia |].
           exists actual. rewrite Nat.sub_diag. split; [reflexivity |].
           now apply andb_true_iff in E.
        -- now left.
      * right. split; [lia |]. exists a. split; [now apply Hshift | exact Hm].
    + intros [H | (Hle & a & Hlook & Hm)].
      * left. destruct (negb _ && _); cbn [snd]; set_solver.
      * destruct (decide (j = k)) as [-> | Hne].
        -- rewrite Nat.sub_diag in Hlook. injection Hlook as <-. left.
           rewrite Hm, andb_true_r. case_bool_decide; cbn [negb snd]; set_solver.
        -- right. split; [lia |]. exists a. split; [apply Hshift; [lia | exact Hlook] | exact Hm].
Qed.

Lemma matchFoods_membership (actualFoods : list string) (detectedFoods : list string) :
  forall (st : matchState) (j : nat),
    j ∈ snd (fold_left (scanActual actualFoods) detectedFoods st)
    ↔ j ∈ snd st ∨ exists detected actual,
          detected ∈ detectedFoods /\ actualFoods !! j = Some actual
          /\ foodsMatch detected actual = true.
Proof.
  induction detectedFoods as [| detected rest IH]; intros st j.
  - cbn. split; [now left |]. intros [H | (d & a & H & _)]; [exact H | ].
    now apply elem_of_nil in H.
  - cbn [fold_left]. rewrite IH. unfold scanActual.
    rewrite (scan_membership detected actualFoods 0 st j). unfold claimedBy.
    rewrite Nat.sub_0_r. split.
    + intros [[H | (_ & a & Hl & Hm)] | (d & a & Hd & Hl & Hm)].
      * now left.
      * right. exists detected, a. split; [left | now split].
      * right. exists d, a. split; [now right | now split].
    + intros [H | (d & a & Hd & Hl & Hm)]; [now left; left |].
      apply elem_of_cons in Hd as [-> | Hd].
      * left. right. split; [lia |]. now exists a.
      * right. now exists d, a.
Qed.

Lemma indicesWhere_length {A : Type} (p : A -> bool) (l : list A) :
  forall k, length (indicesWhere p l k) = length (List.filter p l).
Proof.
  induction l as [| a rest IH]; intros k; [reflexivity |]. cbn.
  destruct (p a); cbn; now rewrite IH.
Qed.

Lemma indicesWhere_elem {A : Type} (p : A -> bool) (l : list A) :
  forall k j, j ∈ indicesWhere p l k
              ↔ (k <= j)%nat /\ exists a, l !! (j - k)%nat = Some a /\ p a = true.
Proof.
  induction l as [| a rest IH]; intros k j.
  - cbn. split; [intros H; now apply elem_of_nil in H | intros (_ & a & H & _); discriminate].
  - assert (Hrest : j ∈ indicesWhere p rest (S k)
                    ↔ (S k <= j)%nat /\ exists b, (a :: rest) !! (j - k)%nat = Some b /\ p b = true).
    { rewrite IH. split; intros (Hle & b & Hl & Hp); (split; [lia |]); exists b; split; try exact Hp.
      - replace (j - k)%nat with (S (j - S k)) by lia. exact Hl.
      - replace (j - k)%nat with (S (j - S k)) in Hl by lia. exact Hl. }
    cbn [indicesWhere]. destruct (p a) eqn:Ep.
    + rewrite elem_of_cons, Hrest. split.
      * intros [-> | (Hle & b & Hl & Hp)].
        -- split; [lia |]. exists a. rewrite Nat.sub_diag. now split.
        -- split; [lia |]. now exists b.
      * intros (Hle & b & Hl & Hp). destruct (decide (j = k)) as [-> | Hne]; [now left |].
        right. split; [lia |]. now exists b.
    + rewrite Hrest. split.
      * intros (Hle & b & Hl & Hp). split; [lia |]. now exists b.
      * intros (Hle & b & Hl & Hp). destruct (decide (j = k)) as [-> | Hne].
        -- rewrite Nat.sub_diag in Hl. injection Hl as <-. congruence.
        -- split; [lia |]. now exists b.
Qed.

Lemma indicesWhere_NoDup {A : Type} (p : A -> bool) (l : list A) :
  forall k, NoDup (indicesWhere p l k).
Proof.
  induction l as [| a rest IH]; intros k; cbn; [constructor |].
  destruct (p a); [| apply IH]. constructor; [| apply IH].
  rewrite indicesWhere_elem. intros (Hle & _). lia.
Qed.

Lemma existsb_elem {A : Type} (p : A -> bool) (l : list A) :
  existsb p l = true ↔ exists a, a ∈ l /\ p a = true.
Proof.
  rewrite existsb_exists. split; intros (a & Ha & Hp); exists a; split; try exact Hp.
  - now apply list_elem_of_In.
  - now apply list_elem_of_In.
Qed.

Lemma matchFoods_count (detectedFoods actualFoods : list string) :
  fst (matchFoods detectedFoods actualFoods)
  = Z.of_nat (length (List.filter
                        (fun actual => existsb (fun detected => foodsMatch detected actual)
                                         detectedFoods)
                        actualFoods)).
Proof.
  destruct (matchFoods_countsClaimed detectedFoods actualFoods) as [Htp _].
  rewrite Htp. f_equal.
  set (p := fun actual => existsb (fun detected => foodsMatch detected actual) detectedFoods).
  rewrite <- (indicesWhere_length p actualFoods 0).
  rewrite <- (size_list_to_set (C := gset nat)) by apply indicesWhere_NoDup.
  f_equal. apply set_eq. intros j.
  unfold matchFoods. rewrite matchFoods_membership, elem_of_list_to_set, indicesWhere_elem.
  cbn [snd]. rewrite Nat.sub_0_r. unfold p. split.
  - intros [H | (d & a & Hd & Hl & Hm)]; [set_solver |].
    split; [lia |]. exists a. split; [exact Hl |]. apply existsb_elem. now exists d.
  - intros (_ & a & Hl & Hp). right. apply existsb_elem in Hp as (d & Hd & Hm). now exists d, a.
Qed.

Lemma filter_map_length {A B : Type} (f : A -> B) (p : B -> bool) (l : list A) :
  length (List.filter p (map f l)) = length (List.filter (fun a => p (f a)) l).
Proof. induction l as [| a l IH]; cbn; [reflexivity |]. destruct (p (f a)); cbn; now rewrite IH. Qed.

Lemma existsb_map {A B : Type} (f : A -> B) (p : B -> bool) (l : list A) :
  existsb p (map f l) = existsb (fun a => p (f a)) l.
Proof. induction l as [| a l IH]; cbn; [reflexivity | now rewrite IH]. Qed.

Lemma existsb_pointwise {A : Type} (p q : A -> bool) (l : list A) :
  (forall a, p a = q a) -> existsb p l = existsb q l.
Proof. intros H. induction l as [| a l IH]; cbn; [reflexivity | now rewrite H, IH]. Qed.

Lemma truePositives_count (aiResult : AIAnalysisResult.t) (groundTruth : GroundTruth.t) :
  truePositives aiResult groundTruth
  = Z.of_nat (length (matchedGroundTruth aiResult groundTruth)).
Proof.
  unfold truePositives, matchedGroundTruth, detectedNames, actualNames.
  rewrite matchFoods_count, filter_map_length. do 2 f_equal.
  apply List.filter_ext. intros gtFood. rewrite existsb_map.
  apply existsb_pointwise. intros aiFood. apply foodsMatch_normalized.
Qed.

Lemma matchedGroundTruth_perm (aiResult aiResult' : AIAnalysisResult.t) (groundTruth : GroundTruth.t) :
  AIAnalysisResult.foods aiResult ≡ₚ AIAnalysisResult.foods aiResult' ->
  matchedGroundTruth aiResult groundTruth = matchedGroundTruth aiResult' groundTruth.
Proof.
  intros Hperm. unfold matchedGroundTruth. apply List.filter_ext. intros gtFood.
  apply eq_true_iff_eq. rewrite !existsb_elem.
  split; intros (a & Ha & Hm); exists a; split; try exact Hm.
  - now rewrite <- Hperm.
  - now rewrite Hperm.
Qed.

(** X5.  [truePositives] is the number of ground-truth foods that at least
    one detected food matches: the pass counts matched ground-truth
    foods, not detected foods that found a match. *)
Theorem truePositives_counts_matched_ground_truth
    (aiResult : AIAnalysisResult.t) (groundTruth : GroundTruth.t) :
  truePositives aiResult groundTruth
  = Z.of_nat (length (matchedGroundTruth aiResult groundTruth)).
Proof. apply truePositives_count. Qed.

(** X6.  The count does not depend on the order of the detected foods nor
    on the order of the ground-truth foods. *)
Theorem truePositives_order_independent
    (aiResult aiResult' : AIAnalysisResult.t) (groundTruth groundTruth' : GroundTruth.t) :
  AIAnalysisResult.foods aiResult ≡ₚ AIAnalysisResult.foods aiResult' ->
  GroundTruth.foods groundTruth ≡ₚ GroundTruth.foods groundTruth' ->
  truePositives aiResult groundTruth = truePositives aiResult' groundTruth'.
Proof.
  intros Hai Hgt. rewrite !truePositives_count. f_equal.
  rewrite (matchedGroundTruth_perm aiResult aiResult' groundTruth Hai).
  unfold matchedGroundTruth.
  apply Permutation_length.
  generalize (fun gtFood : FoodGroundTruth.t =>
       existsb (fun aiFood => foodsMatch (DetectedFood.name aiFood) (FoodGroundTruth.name gtFood))
         (AIAnalysisResult.foods aiResult')).
  intros p. induction Hgt as [| g l l' _ IH | g g' l | l l' l'' _ IH1 _ IH2]; cbn.
  - constructor.
  - destruct (p g); [now constructor | exact IH].
  - destruct (p g), (p g'); try reflexivity. apply perm_swap.
  - now transitivity (List.filter p l').
Qed.

Lemma truePositives_order_independent_witness :
  truePositives (AIAnalysisResult.mk [food "rice"; food "chicken"] 0.9 None) two_rice_dishes
  = truePositives (AIAnalysisResult.mk [food "chicken"; food "rice"] 0.9 None) two_rice_dishes.
Proof.
  apply truePositives_order_independent; [apply perm_swap | reflexivity].
Defined.

(** X7.  [truePositives] and [falseNegatives] both lie between 0 and the
    number of ground-truth foods, and add up to it; so the denominator of
    [recall] is that number. *)
Theorem falseNegatives_range (aiResult : AIAnalysisResult.t) (groundTruth : GroundTruth.t) :
  let n := Z.of_nat (length (GroundTruth.foods groundTruth)) in
  (0 <= truePositives aiResult groundTruth <= n)%Z
  /\ (0 <= falseNegatives aiResult groundTruth <= n)%Z
  /\ (truePositives aiResult groundTruth + falseNegatives aiResult groundTruth = n)%Z.
Proof.
  intros n. pose proof (truePositives_bounds aiResult groundTruth) as H.
  unfold falseNegatives, actualNames. rewrite length_map. fold n. lia.
Qed.

Lemma quantityErrorOf_length (groundTruth : GroundTruth.t) (aiFood : DetectedFood.t) :
  (length (quantityErrorOf groundTruth aiFood) <= 1)%nat.
Proof.
  unfold quantityErrorOf. destruct (find _ _); [| cbn; lia].
  destruct (PrimFloat.ltb _ _); cbn; lia.
Qed.

(** X8.  The quantity pass records at most one error per detected food:
    [find] stops at the first ground-truth food that matches. *)
Theorem quantityErrors_at_most_one_each (aiResult : AIAnalysisResult.t) (groundTruth : GroundTruth.t) :
  (length (quantityErrors aiResult groundTruth) <= length (AIAnalysisResult.foods aiResult))%nat.
Proof.
  unfold quantityErrors. induction (AIAnalysisResult.foods aiResult) as [| aiFood rest IH].
  - cbn. lia.
  - cbn [flat_map]. rewrite length_app. cbn [length].
    pose proof (quantityErrorOf_length groundTruth aiFood). lia.
Qed.

Lemma anyMatch_false (aiResult : AIAnalysisResult.t) (groundTruth : GroundTruth.t) :
  anyMatch aiResult groundTruth = false -> nothingMatches aiResult groundTruth.
Proof.
  intros H aiFood gtFood Hai Hgt.
  destruct (foodsMatch _ _) eqn:E; [| reflexivity].
  assert (Hany : anyMatch aiResult groundTruth = true); [| congruence].
  apply existsb_elem. exists aiFood. split; [exact Hai |].
  apply existsb_elem. now exists gtFood.
Qed.

Lemma filter_nothing {A : Type} (p : A -> bool) (l : list A) :
  (forall a, a ∈ l -> p a = false) -> List.filter p l = [].
Proof.
  induction l as [| a l IH]; intros H; [reflexivity |]. cbn.
  rewrite (H a) by left. apply IH. intros b Hb. apply H. now right.
Qed.

Lemma find_nothing {A : Type} (p : A -> bool) (l : list A) :
  (forall a, a ∈ l -> p a = false) -> find p l = None.
Proof.
  induction l as [| a l IH]; intros H; [reflexivity |]. cbn.
  rewrite (H a) by left. apply IH. intros b Hb. apply H. now right.
Qed.

Lemma existsb_nothing {A : Type} (p : A -> bool) (l : list A) :
  (forall a, a ∈ l -> p a = false) -> existsb p l = false.
Proof.
  induction l as [| a l IH]; intros H; [reflexivity |]. cbn.
  rewrite (H a) by left. apply IH. intros b Hb. apply H. now right.
Qed.

Lemma nothingMatches_truePositives (aiResult : AIAnalysisResult.t) (groundTruth : GroundTruth.t) :
  nothingMatches aiResult groundTruth -> truePositives aiResult groundTruth = 0%Z.
Proof.
  intros Hnone. rewrite truePositives_count. unfold matchedGroundTruth.
  rewrite filter_nothing; [reflexivity |].
  intros gtFood Hgt. apply existsb_nothing. intros aiFood Hai. now apply Hnone.
Qed.

Lemma nothingMatches_quantityErrors (aiResult : AIAnalysisResult.t) (groundTruth : GroundTruth.t) :
  nothingMatches aiResult groundTruth -> quantityErrors aiResult groundTruth = [].
Proof.
  intros Hnone. unfold quantityErrors, nothingMatches in *.
  induction (AIAnalysisResult.foods aiResult) as [| aiFood rest IH]; [reflexivity |].
  cbn [flat_map]. rewrite IH by (intros a g Ha Hg; apply Hnone; [now right | exact Hg]).
  unfold quantityErrorOf. rewrite find_nothing; [reflexivity |].
  intros gtFood Hgt. apply Hnone; [left | exact Hgt].
Qed.

(** X9.  When no detected food matches any ground-truth food (in
    particular when either list is empty) the intermediate metrics take
    their defaults: no true positive, precision, recall and F1 of 0, an
    average quantity error of 1 and a quantity accuracy of 0. *)
Theorem nothing_matches_default_metrics (aiResult : AIAnalysisResult.t) (groundTruth : GroundTruth.t) :
  anyMatch aiResult groundTruth = false ->
  truePositives aiResult groundTruth = 0%Z
  /\ falsePositives aiResult groundTruth = Z.of_nat (length (AIAnalysisResult.foods aiResult))
  /\ falseNegatives aiResult groundTruth = Z.of_nat (length (GroundTruth.foods groundTruth))
  /\ precision aiResult groundTruth = 0
  /\ recall aiResult groundTruth = 0
  /\ f1Score (precision aiResult groundTruth) (recall aiResult groundTruth) = 0
  /\ avgQuantityError aiResult groundTruth = 1
  /\ Js.Math_max 0 (1 - avgQuantityError aiResult groundTruth) = 0.
Proof.
  intros Hnone. apply anyMatch_false in Hnone.
  pose proof (nothingMatches_truePositives _ _ Hnone) as Htp.
  pose proof (nothingMatches_quantityErrors _ _ Hnone) as Hq.
  unfold falsePositives, falseNegatives, precision, recall, avgQuantityError,
    detectedNames, actualNames.
  rewrite Htp, Hq, !length_map. cbn.
  repeat split; lia.
Qed.

Lemma nothing_matches_default_metrics_witness :
  let aiResult := AIAnalysisResult.mk [food "pizza"] 0.9 None in
  let groundTruth := GroundTruth.mk [truth "salad"; truth "soup"] 400 8 90 2 in
  truePositives aiResult groundTruth = 0%Z
  /\ falsePositives aiResult groundTruth = 1%Z
  /\ falseNegatives aiResult groundTruth = 2%Z
  /\ precision aiResult groundTruth = 0
  /\ recall aiResult groundTruth = 0
  /\ f1Score (precision aiResult groundTruth) (recall aiResult groundTruth) = 0
  /\ avgQuantityError aiResult groundTruth = 1
  /\ Js.Math_max 0 (1 - avgQuantityError aiResult groundTruth) = 0.
Proof.
  exact (nothing_matches_default_metrics
           (AIAnalysisResult.mk [food "pizza"] 0.9 None)
           (GroundTruth.mk [truth "salad"; truth "soup"] 400 8 90 2) eq_refl).
Defined.

Lemma positive_not_negative (x : float) : PrimFloat.ltb 0 x = true -> PrimFloat.ltb x 0 = false.
Proof.
  rewrite !FloatAxioms.ltb_spec.
  destruct (Prim2SF x) as [s | s | | s m e]; try destruct s; cbn; congruence.
Qed.

Lemma Math_max_zero_not_negative (x : float) : PrimFloat.ltb (Js.Math_max 0 x) 0 = false.
Proof.
  unfold Js.Math_max. cbn [orb]. change (PrimFloat.is_nan 0) with false. cbn [orb].
  destruct (PrimFloat.is_nan x); [reflexivity |].
  destruct (PrimFloat.ltb 0 x) eqn:E; [now apply positive_not_negative |].
  destruct (PrimFloat.ltb x 0); reflexivity.
Qed.

(** X10.  The four accuracies of [calculateNutritionAccuracy] are never
    negative: the clamp [Math.max(0, ...)] holds for every input. *)
Theorem accuracies_never_negative (aiTotals : AiTotals.t) (groundTruth : GroundTruth.t) :
  let result := calculateNutritionAccuracy aiTotals groundTruth in
  PrimFloat.ltb (NutritionAccuracy.calorieAccuracy result) 0 = false
  /\ PrimFloat.ltb (NutritionAccuracy.proteinAccuracy result) 0 = false
  /\ PrimFloat.ltb (NutritionAccuracy.carbsAccuracy result) 0 = false
  /\ PrimFloat.ltb (NutritionAccuracy.fatAccuracy result) 0 = false.
Proof. cbn. repeat split; apply Math_max_zero_not_negative. Qed.

(** ** [convertToGrams], unit by unit *)

Lemma convertToGrams_table_witness : convertToGrams 2 " OZ " = 2 * 28.35.
Proof.
  apply (convertToGrams_table 2 " OZ " "oz" 28.35); [| reflexivity].
  unfold SERVING_CONVERSIONS_entries. repeat constructor.
Defined.

Lemma convertToGrams_plural_witness : convertToGrams 3 "Slices" = 3 * 30.
Proof.
  apply (convertToGrams_plural 3 "Slices" "slice" 30); [| reflexivity].
  unfold SERVING_CONVERSIONS_entries. repeat constructor.
Defined.

Lemma lowerChar_not_upper (c : ascii) : isUpperAZ (Js.lowerChar c) = false.
Proof. each_code_unit c; reflexivity. Qed.

Lemma toLowerCase_no_upper (s : string) : hasUpper (Js.toLowerCase s) = false.
Proof. induction s as [| c s IH]; cbn; [reflexivity | now rewrite lowerChar_not_upper, IH]. Qed.

Lemma trimStart_no_upper (s : string) : hasUpper s = false -> hasUpper (Js.trimStart s) = false.
Proof.
  induction s as [| c s IH]; [reflexivity |]. cbn. intros H.
  apply orb_false_iff in H as [Hc Hs].
  destruct (Js.isWhiteSpace c); [now apply IH | cbn; now rewrite Hc, Hs].
Qed.

Lemma trimEnd_no_upper (s : string) : hasUpper s = false -> hasUpper (Js.trimEnd s) = false.
Proof.
  induction s as [| c s IH]; [reflexivity |]. rewrite trimEnd_cons. cbn [hasUpper]. intros H.
  apply orb_false_iff in H as [Hc Hs]. specialize (IH Hs).
  destruct (Js.trimEnd s).
  - destruct (Js.isWhiteSpace c); cbn; [reflexivity | now rewrite Hc].
  - cbn [hasUpper] in *. now rewrite Hc, IH.
Qed.

Lemma substring_no_upper (s : string) :
  forall n, hasUpper s = false -> hasUpper (String.substring 0 n s) = false.
Proof.
  induction s as [| c s IH]; intros n H; [now destruct n |].
  cbn in H. apply orb_false_iff in H as [Hc Hs].
  destruct n; cbn; [reflexivity |]. now rewrite Hc, IH.
Qed.

Lemma normalizedUnit_no_upper (unit : string) : hasUpper (Js.trim (Js.toLowerCase unit)) = false.
Proof. unfold Js.trim. apply trimEnd_no_upper, trimStart_no_upper, toLowerCase_no_upper. Qed.

Lemma get_lowercase (key : string) :
  hasUpper key = false ->
  Js.get SERVING_CONVERSIONS key =
    match SERVING_CONVERSIONS !! key with
    | Some factor => Js.Number factor
    | None => if reachesPrototype key then Js.Inherited else Js.Undefined
    end.
Proof.
  intros Hkey. unfold Js.get, reachesPrototype.
  destruct (SERVING_CONVERSIONS !! key); [reflexivity |].
  unfold Js.Object_prototype_keys. cbn [existsb].
  repeat match goal with
         | |- context [String.eqb key ?k] =>
             lazymatch eval vm_compute in (hasUpper k) with
             | true =>
                 destruct (String.eqb_spec key k) as [Heq | _];
                 [rewrite Heq in Hkey; vm_compute in Hkey; discriminate |]
             end
         end.
  cbn [orb]. rewrite orb_false_r. reflexivity.
Qed.

Lemma lookup_truthy (key : string) (factor : float) :
  SERVING_CONVERSIONS !! key = Some factor -> Js.truthy factor = true.
Proof. intros H. apply SERVING_CONVERSIONS_lookup in H. exact (factor_truthy _ _ H). Qed.

Lemma convertToGrams_factor (quantity : float) (unit : string) :
  convertToGrams quantity unit
  = quantity * conversionFactorOf (Js.trim (Js.toLowerCase unit)).
Proof.
  unfold convertToGrams, conversionFactorOf.
  pose proof (normalizedUnit_no_upper unit) as Hn.
  set (n := Js.trim (Js.toLowerCase unit)) in *.
  rewrite (get_lowercase n Hn).
  destruct (SERVING_CONVERSIONS !! n) as [factor |] eqn:E.
  - cbn. now rewrite (lookup_truthy _ _ E).
  - destruct (reachesPrototype n); [reflexivity |]. cbn [Js.ToBoolean].
    destruct (Js.endsWith n "s"); [| reflexivity].
    rewrite get_lowercase by (unfold Js.dropLast; now apply substring_no_upper).
    destruct (SERVING_CONVERSIONS !! Js.dropLast n) as [factor |] eqn:E'.
    + cbn. now rewrite (lookup_truthy _ _ E').
    + destruct (reachesPrototype (Js.dropLast n)); reflexivity.
Qed.

(** X13.  [convertToGrams] multiplies the quantity by a factor that depends
    on the lower-cased, trimmed unit alone: the table entry; else the
    entry of the unit without its final [s]; else 100.  Among the names
    that an object literal inherits only [constructor] and [__proto__]
    have no capital letter, so they are the only ones a unit or its
    singular can reach; the factor is then [NaN]. *)
Theorem convertToGrams_by_factor (quantity : float) (unit : string) :
  convertToGrams quantity unit
  = quantity * conversionFactorOf (Js.trim (Js.toLowerCase unit)).
Proof. apply convertToGrams_factor. Qed.

(** X14.  A quantity of zero converts to zero grams for every unit, except
    the units whose read reaches [Object.prototype], for which the result
    is [NaN]. *)
Theorem convertToGrams_zero_quantity (unit : string) :
  convertToGrams 0 unit = if readsPrototype (Js.trim (Js.toLowerCase unit)) then nan else 0.
Proof.
  rewrite convertToGrams_factor. unfold conversionFactorOf, readsPrototype.
  set (n := Js.trim (Js.toLowerCase unit)).
  destruct (SERVING_CONVERSIONS !! n) as [factor |] eqn:E.
  - apply SERVING_CONVERSIONS_lookup in E. exact (zero_times_factor _ _ E).
  - destruct (reachesPrototype n); [reflexivity |]. cbn [orb].
    destruct (Js.endsWith n "s"); [| reflexivity]. cbn [andb].
    destruct (SERVING_CONVERSIONS !! Js.dropLast n) as [factor |] eqn:E'.
    + apply SERVING_CONVERSIONS_lookup in E'. exact (zero_times_factor _ _ E').
    + destruct (reachesPrototype (Js.dropLast n)); reflexivity.
Qed.

(** ** The two aggregators *)

(** X15.  [calculateTotalNutrition] is [calculateDailyTotals] applied to
    the per-serving nutrition of the items. *)
Theorem calculateTotalNutrition_as_daily_totals (items : list FoodItemWithServing.t) :
  calculateTotalNutrition items
  = calculateDailyTotals
      (map (fun item =>
              calculateNutritionForServing
                (FoodItemWithServing.item item) (FoodItemWithServing.serving item))
         items).
Proof.
  unfold calculateTotalNutrition, calculateDailyTotals, sumServings. f_equal.
  generalize Totals.zero. induction items as [| item items IH]; intros acc; [reflexivity |].
  cbn [map fold_left]. now rewrite IH.
Qed.

Lemma opt_or_else_falsy (o : option float) : Js.truthy_opt o = false -> Js.opt_or_else o 0 = 0.
Proof.
  destruct o as [v |]; [| reflexivity]. cbn. unfold Js.or_else. now intros ->.
Qed.

Ltac daily_total_stays_zero meals :=
  induction meals as [| meal meals IH]; intros acc Hacc Hmeals; [exact Hacc |];
  cbn in Hmeals; apply andb_true_iff in Hmeals as [Hmeal Hrest];
  apply negb_true_iff in Hmeal;
  cbn [fold_left]; apply IH; [| exact Hrest];
  unfold addNutrition; cbn; rewrite Hacc, (opt_or_else_falsy _ Hmeal); reflexivity.

Lemma daily_fiber_zero (meals : list NutritionData.t) :
  forall acc, Totals.fiber acc = 0 -> noneReports NutritionData.fiber meals = true ->
              Totals.fiber (fold_left addNutrition meals acc) = 0.
Proof. daily_total_stays_zero meals. Qed.

Lemma daily_sugar_zero (meals : list NutritionData.t) :
  forall acc, Totals.sugar acc = 0 -> noneReports NutritionData.sugar meals = true ->
              Totals.sugar (fold_left addNutrition meals acc) = 0.
Proof. daily_total_stays_zero meals. Qed.

Lemma daily_sodium_zero (meals : list NutritionData.t) :
  forall acc, Totals.sodium acc = 0 -> noneReports NutritionData.sodium meals = true ->
              Totals.sodium (fold_left addNutrition meals acc) = 0.
Proof. daily_total_stays_zero meals. Qed.

(** X16.  In [calculateDailyTotals] an optional nutrient that no meal
    reports (absent, zero or [NaN] in every meal) is absent from the
    total; the total of no meals is zero with all three optional
    nutrients absent. *)
Theorem calculateDailyTotals_unreported_stays_absent (meals : list NutritionData.t) :
  (noneReports NutritionData.fiber meals = true ->
   NutritionData.fiber (calculateDailyTotals meals) = None)
  /\ (noneReports NutritionData.sugar meals = true ->
      NutritionData.sugar (calculateDailyTotals meals) = None)
  /\ (noneReports NutritionData.sodium meals = true ->
      NutritionData.sodium (calculateDailyTotals meals) = None)
  /\ calculateDailyTotals [] = NutritionData.mk 0 0 0 0 None None None.
Proof.
  unfold calculateDailyTotals, roundTotals. cbn [NutritionData.fiber NutritionData.sugar NutritionData.sodium].
  repeat apply conj; try reflexivity; intros H.
  - now rewrite (daily_fiber_zero meals Totals.zero eq_refl H).
  - now rewrite (daily_sugar_zero meals Totals.zero eq_refl H).
  - now rewrite (daily_sodium_zero meals Totals.zero eq_refl H).
Qed.

Lemma calculateDailyTotals_unreported_stays_absent_witness :
  NutritionData.fiber
    (calculateDailyTotals
       [NutritionData.mk 320 12 40 9 None (Some 6) (Some 0);
        NutritionData.mk 540 30 55 18 (Some 0) (Some 11) None]) = None.
Proof.
  exact (proj1 (calculateDailyTotals_unreported_stays_absent
                  [NutritionData.mk 320 12 40 9 None (Some 6) (Some 0);
                   NutritionData.mk 540 30 55 18 (Some 0) (Some 11) None]) eq_refl).
Defined.

(** ** The evaluation run *)

(** A ground truth of the declared type has named foods: on such a value
    the [try] block goes through [calculateMetrics] as it is typed. *)
Lemma typed_food_is_named (f : EvaluationRun.json) (typed : FoodGroundTruth.t) :
  EvaluationRun.asFoodGroundTruth f = Some typed -> EvaluationRun.isNamedFood f = true.
Proof.
  destruct f as [| | | | | properties]; try discriminate.
  unfold EvaluationRun.asFoodGroundTruth, EvaluationRun.isNamedFood.
  destruct (EvaluationRun.property properties "name") as [[] |]; try discriminate.
  reflexivity.
Qed.

Lemma typed_has_named_foods (groundTruth : EvaluationRun.json) (typed : GroundTruth.t) :
  EvaluationRun.asGroundTruth groundTruth = Some typed ->
  EvaluationRun.hasNamedFoods groundTruth = true.
Proof.
  destruct groundTruth as [| | | | | properties]; try discriminate.
  unfold EvaluationRun.asGroundTruth, EvaluationRun.hasNamedFoods.
  destruct (EvaluationRun.property properties "foods") as [[| | | | elements |] |];
    try discriminate.
  cbn [mbind option_bind EvaluationRun.asArray].
  destruct (mapM EvaluationRun.asFoodGroundTruth elements) as [foods |] eqn:E;
    [| discriminate].
  intros _. apply mapM_Some_1 in E. apply forallb_forall. intros f Hf.
  apply list_elem_of_In in Hf.
  induction E as [| g t elements foods Hg _ IH]; [now apply elem_of_nil in Hf |].
  apply elem_of_cons in Hf as [-> | Hf]; [exact (typed_food_is_named _ _ Hg) | exact (IH Hf)].
Qed.

Section EvaluationRunFacts.

Variable JSON_parse : string -> EvaluationRun.caught + EvaluationRun.json.
Variable typeErrorMessage : EvaluationRun.json -> string.


Lemma score_typed (item : EvaluationRun.BenchmarkItem) (parsed : EvaluationRun.json)
    (typed : GroundTruth.t) (lookups : EvaluationRun.Lookups) :
  EvaluationRun.asGroundTruth parsed = Some typed ->
  EvaluationRun.score typeErrorMessage item parsed lookups
  = match calculateMetrics (EvaluationRun.aiAnalysis lookups) typed with
    | Js.Throw error => inl (EvaluationRun.ofError error)
    | Js.Normal _ =>
        match EvaluationRun.scoreTyped item parsed typed lookups with
        | Js.Normal result => inr result
        | Js.Throw error => inl (EvaluationRun.ofError error)
        end
    end.
Proof.
  intros Htyped. unfold EvaluationRun.score.
  now rewrite (typed_has_named_foods _ _ Htyped), Htyped.
Qed.







End EvaluationRunFacts.


(** ** [extractNutritionData] *)

Lemma truthy_not_nan (x : float) : Js.truthy x = true -> PrimFloat.is_nan x = false.
Proof.
  unfold Js.truthy. intros H. apply negb_true_iff, orb_false_iff in H. tauto.
Qed.

Lemma findNutrient_not_nan (nutrients : list USDAFoodNutrient.t) (nutrientId : float) :
  PrimFloat.is_nan (findNutrient nutrients nutrientId) = false.
Proof.
  unfold findNutrient. destruct (find _ _) as [n |]; [| reflexivity].
  unfold Js.or_else. destruct (Js.truthy _) eqn:E; [now apply truthy_not_nan | reflexivity].
Qed.

Lemma orUndefined_truthy (x v : float) : orUndefined x = Some v -> Js.truthy v = true.
Proof. unfold orUndefined. destruct (Js.truthy x) eqn:E; [| discriminate]. now intros [= <-]. Qed.

(** X18.  Whatever the USDA record holds, the extracted calories, protein,
    carbs and fat are never [NaN], and an optional nutrient is either
    absent or a number that is neither zero nor [NaN]. *)
Theorem extractNutritionData_never_NaN_or_zero_optional (food : USDAFood.t) :
  let nutrition := extractNutritionData food in
  PrimFloat.is_nan (NutritionData.calories nutrition) = false
  /\ PrimFloat.is_nan (NutritionData.protein nutrition) = false
  /\ PrimFloat.is_nan (NutritionData.carbs nutrition) = false
  /\ PrimFloat.is_nan (NutritionData.fat nutrition) = false
  /\ (forall v, NutritionData.fiber nutrition = Some v -> Js.truthy v = true)
  /\ (forall v, NutritionData.sugar nutrition = Some v -> Js.truthy v = true)
  /\ (forall v, NutritionData.sodium nutrition = Some v -> Js.truthy v = true).
Proof.
  cbn. repeat split; try apply findNutrient_not_nan; intros v; apply orUndefined_truthy.
Qed.

Lemma scaleOptional_orUndefined (x scaleFactor : float) :
  scaleOptional (orUndefined x) scaleFactor
  = option_map (fun v => v * scaleFactor) (orUndefined x).
Proof. unfold orUndefined. destruct (Js.truthy x) eqn:E; cbn; [now rewrite E | reflexivity]. Qed.

(** X19.  For a food item cached from a USDA record,
    [calculateNutritionForServing] keeps every optional nutrient that
    [extractNutritionData] found, scaled to the serving, and adds none. *)
Theorem cached_food_keeps_optional_fields (food : USDAFood.t) (serving : ServingInfo.t) :
  let extracted := extractNutritionData food in
  let nutrition := calculateNutritionForServing (cachedColumns extracted) serving in
  let scale v := v * (ServingInfo.grams serving / 100) in
  NutritionData.fiber nutrition = option_map scale (NutritionData.fiber extracted)
  /\ NutritionData.sugar nutrition = option_map scale (NutritionData.sugar extracted)
  /\ NutritionData.sodium nutrition = option_map scale (NutritionData.sodium extracted).
Proof. cbn. repeat split; apply scaleOptional_orUndefined. Qed.

(** X20.  A nutrient id that the record does not list reads as 0, and as
    absent where the field is optional. *)
Theorem findNutrient_missing (nutrients : list USDAFoodNutrient.t) (nutrientId : float) :
  existsb (fun n => PrimFloat.eqb (USDAFoodNutrient.nutrientId n) nutrientId) nutrients = false ->
  findNutrient nutrients nutrientId = 0
  /\ orUndefined (findNutrient nutrients nutrientId) = None.
Proof.
  intros H. assert (Hfind : findNutrient nutrients nutrientId = 0).
  { unfold findNutrient.
    induction nutrients as [| n nutrients IH]; [reflexivity |].
    cbn in H |- *. apply orb_false_iff in H as [Hn Hrest]. rewrite Hn. now apply IH. }
  now rewrite Hfind.
Qed.

Lemma findNutrient_missing_witness :
  findNutrient [USDAFoodNutrient.mk 1008 "Energy" "208" "KCAL" 52] NUTRIENT_IDS.FIBER = 0
  /\ orUndefined
       (findNutrient [USDAFoodNutrient.mk 1008 "Energy" "208" "KCAL" 52] NUTRIENT_IDS.FIBER)
     = None.
Proof.
  exact (findNutrient_missing
           [USDAFoodNutrient.mk 1008 "Energy" "208" "KCAL" 52] NUTRIENT_IDS.FIBER eq_refl).
Defined.

(** ** Image validation *)

Module ImageChecks.

Import ImageValidator.

Lemma substring_whole (s : string) : String.substring 0 (String.length s) s = s.
Proof. induction s as [| c s IH]; cbn; [reflexivity | now rewrite IH]. Qed.

Lemma substring_split (s : string) :
  forall k, s = (String.substring 0 k s ++ String.substring k (String.length s - k) s)%string.
Proof.
  induction s as [| c s IH]; intros k.
  - now destruct k.
  - destruct k as [| k]; cbn.
    + now rewrite substring_whole.
    + change (String c s
              = String c (String.substring 0 k s
                          ++ String.substring k (String.length s - k) s)%string).
      f_equal. apply IH.
Qed.

Lemma includesString_elem (array : list string) (s : string) :
  includesString array s = true -> s ∈ array.
Proof.
  unfold includesString. intros H. apply existsb_exists in H as (x & Hx & Heq).
  apply String.eqb_eq in Heq. subst x. now apply list_elem_of_In.
Qed.

Section Validation.

Variable MAX_FILE_SIZE : float.
Variable toFixed2 : float -> string.

Lemma validateImageFile_valid (f : File) :
  valid (validateImageFile MAX_FILE_SIZE toFixed2 (Some f)) = acceptable MAX_FILE_SIZE f.
Proof.
  unfold validateImageFile, acceptable, sizeError, typeError, extensionError, nameError.
  cbn [valid].
  destruct (PrimFloat.ltb _ _), (includesString ALLOWED_MIME_TYPES _),
    (includesString ALLOWED_EXTENSIONS _), (_ <? _)%Z; reflexivity.
Qed.

(** X21.  [validateImageFile] accepts a file exactly when it passes the
    four checks (size, MIME type, extension, length of the name); an
    accepted file is returned with no error, a rejected one is not
    returned and has at least one error. *)
Theorem validateImageFile_accepts_iff (f : File) :
  let result := validateImageFile MAX_FILE_SIZE toFixed2 (Some f) in
  valid result = acceptable MAX_FILE_SIZE f
  /\ (valid result = true -> errors result = [] /\ file result = Some f)
  /\ (valid result = false -> errors result <> [] /\ file result = None).
Proof.
  split; [apply validateImageFile_valid |].
  unfold validateImageFile, sizeError, typeError, extensionError, nameError.
  cbn [valid errors file].
  destruct (PrimFloat.ltb _ _), (includesString ALLOWED_MIME_TYPES _),
    (includesString ALLOWED_EXTENSIONS _), (_ <? _)%Z;
    cbn; split; intros H; try discriminate H; split; try reflexivity; discriminate.
Qed.

(** X22.  The errors come in the order of the checks, at most one for
    each. *)
Theorem validateImageFile_errors_in_order (f : File) :
  sublist (map field (errors (validateImageFile MAX_FILE_SIZE toFixed2 (Some f))))
    ["size"; "type"; "extension"; "name"]%string.
Proof.
  unfold validateImageFile, sizeError, typeError, extensionError, nameError.
  cbn [errors].
  destruct (PrimFloat.ltb _ _), (includesString ALLOWED_MIME_TYPES _),
    (includesString ALLOWED_EXTENSIONS _), (_ <? _)%Z; cbn;
    repeat first [apply sublist_nil | apply sublist_skip | apply sublist_cons].
Qed.

(** X23.  The lower-cased name of an accepted file ends in one of the
    allowed extensions. *)
Theorem accepted_name_has_allowed_extension (f : File) :
  valid (validateImageFile MAX_FILE_SIZE toFixed2 (Some f)) = true ->
  exists stem extension,
    extension ∈ ALLOWED_EXTENSIONS
    /\ Js.toLowerCase (name f) = (stem ++ extension)%string.
Proof.
  rewrite validateImageFile_valid. unfold acceptable. intros H.
  apply andb_true_iff in H as [H _]. apply andb_true_iff in H as [_ Hext].
  apply includesString_elem in Hext.
  eexists _, (extensionOf (name f)). split; [exact Hext |].
  unfold extensionOf, substringFrom. apply substring_split.
Qed.

(** X24.  [saveMealImage] names the stored file after
    [getExtensionFromMimeType(file.type)]: for an accepted file this is
    one of the allowed extensions. *)
Theorem accepted_type_has_allowed_extension (f : File) :
  valid (validateImageFile MAX_FILE_SIZE toFixed2 (Some f)) = true ->
  exists extension,
    getExtensionFromMimeType (type f) = Text extension
    /\ extension ∈ ALLOWED_EXTENSIONS.
Proof.
  rewrite validateImageFile_valid. unfold acceptable. intros H.
  apply andb_true_iff in H as [H _]. apply andb_true_iff in H as [H _].
  apply andb_true_iff in H as [_ Htype].
  apply includesString_elem in Htype. unfold ALLOWED_MIME_TYPES in Htype.
  repeat (apply elem_of_cons in Htype as [-> | Htype];
          [eexists; split; [reflexivity | unfold ALLOWED_EXTENSIONS; set_solver] |]).
  now apply elem_of_nil in Htype.
Qed.

End Validation.

Lemma accepted_name_has_allowed_extension_witness :
  exists stem extension,
    extension ∈ ALLOWED_EXTENSIONS /\ Js.toLowerCase (name photo) = (stem ++ extension)%string.
Proof. exact (accepted_name_has_allowed_extension tenMegabytes noDigits photo eq_refl). Defined.

Lemma accepted_type_has_allowed_extension_witness :
  exists extension,
    getExtensionFromMimeType (type photo) = Text extension /\ extension ∈ ALLOWED_EXTENSIONS.
Proof. exact (accepted_type_has_allowed_extension tenMegabytes noDigits photo eq_refl). Defined.

Lemma mimeMap_lookup_None (mimeType : string) :
  mimeType ∉ ALLOWED_MIME_TYPES -> mimeMap !! mimeType = None.
Proof.
  intros Hnot. destruct (mimeMap !! mimeType) as [extension |] eqn:E; [| reflexivity].
  exfalso. apply Hnot. unfold mimeMap in E. apply elem_of_list_to_map_2 in E.
  unfold ALLOWED_MIME_TYPES.
  repeat (apply elem_of_cons in E as [[= -> ->] | E]; [set_solver |]).
  now apply elem_of_nil in E.
Qed.

Lemma inherited_key_found (key : string) :
  key ∈ Js.Object_prototype_keys -> existsb (String.eqb key) Js.Object_prototype_keys = true.
Proof.
  intros Hin. apply existsb_exists. exists key.
  split; [now apply list_elem_of_In | apply String.eqb_refl].
Qed.

Lemma other_key_not_found (key : string) :
  key ∉ Js.Object_prototype_keys -> existsb (String.eqb key) Js.Object_prototype_keys = false.
Proof.
  intros Hnot. destruct (existsb _ _) eqn:Ex; [| reflexivity].
  exfalso. apply Hnot. apply existsb_exists in Ex as (k & Hk & Heq).
  apply String.eqb_eq in Heq. subst k. now apply list_elem_of_In.
Qed.

(** X25.  [getExtensionFromMimeType] gives each of the four types of its
    map the extension listed for it, and [.jpg] for every other type,
    unless the type is one of the names that the map inherits from
    [Object.prototype]: then it gives the inherited value, which is no
    string. *)
Theorem getExtensionFromMimeType_classified :
  getExtensionFromMimeType "image/jpeg" = Text ".jpg"
  /\ getExtensionFromMimeType "image/jpg" = Text ".jpg"
  /\ getExtensionFromMimeType "image/png" = Text ".png"
  /\ getExtensionFromMimeType "image/webp" = Text ".webp"
  /\ (forall mimeType,
        mimeType ∈ Js.Object_prototype_keys ->
        getExtensionFromMimeType mimeType = ImageValidator.Inherited)
  /\ (forall mimeType,
        mimeType ∉ ALLOWED_MIME_TYPES ->
        mimeType ∉ Js.Object_prototype_keys ->
        getExtensionFromMimeType mimeType = Text ".jpg").
Proof.
  repeat (split; [reflexivity |]). split.
  - intros mimeType Hin. unfold getExtensionFromMimeType, getText.
    rewrite mimeMap_lookup_None, (inherited_key_found _ Hin); [reflexivity |].
    unfold ALLOWED_MIME_TYPES. intros Hallowed.
    unfold Js.Object_prototype_keys in Hin.
    repeat (apply elem_of_cons in Hallowed as [-> | Hallowed];
            [repeat (apply elem_of_cons in Hin as [[=] | Hin]); now apply elem_of_nil in Hin |]).
    now apply elem_of_nil in Hallowed.
  - intros mimeType Hallowed Hinherited. unfold getExtensionFromMimeType, getText.
    now rewrite (mimeMap_lookup_None _ Hallowed), (other_key_not_found _ Hinherited).
Qed.

Lemma afterPrefix_cons (a b : ascii) (literal s : string) :
  afterPrefix (String a literal) (String b s)
  = if Ascii.eqb a b then afterPrefix literal s else None.
Proof. reflexivity. Qed.

Lemma afterPrefix_append (literal rest : string) :
  afterPrefix literal (literal ++ rest) = Some rest.
Proof.
  induction literal as [| c literal IH]; [now destruct rest |].
  change (String c literal ++ rest)%string with (String c (literal ++ rest)).
  now rewrite afterPrefix_cons, Ascii.eqb_refl.
Qed.

Lemma afterPrefix_split (literal s rest : string) :
  afterPrefix literal s = Some rest -> s = (literal ++ rest)%string.
Proof.
  revert s. induction literal as [| c literal IH]; intros s H.
  - destruct s; now injection H as <-.
  - destruct s as [| d s]; [discriminate |]. rewrite afterPrefix_cons in H.
    destruct (Ascii.eqb_spec c d) as [-> | _]; [| discriminate].
    change (String d literal ++ rest)%string with (String d (literal ++ rest)).
    f_equal. now apply IH.
Qed.

Lemma spanLower_cons (c : ascii) (s : string) :
  spanLower (String c s)
  = if isLowerAZ c then (String c (fst (spanLower s)), snd (spanLower s))
    else (EmptyString, String c s).
Proof. cbn [spanLower]. destruct (isLowerAZ c); [now destruct (spanLower s) | reflexivity]. Qed.

Lemma spanLower_append (subtype rest : string) :
  allLowerAZ subtype = true ->
  spanLower (subtype ++ String ";"%char rest) = (subtype, String ";"%char rest).
Proof.
  induction subtype as [| c subtype IH]; intros H; [reflexivity |].
  cbn [allLowerAZ] in H. apply andb_true_iff in H as [Hc Hrest].
  change (String c subtype ++ String ";"%char rest)%string
    with (String c (subtype ++ String ";"%char rest)).
  now rewrite spanLower_cons, Hc, (IH Hrest).
Qed.

Lemma spanLower_split (s : string) :
  s = (fst (spanLower s) ++ snd (spanLower s))%string.
Proof.
  induction s as [| c s IH]; [reflexivity |]. rewrite spanLower_cons.
  destruct (isLowerAZ c); [| reflexivity].
  cbn [fst snd].
  change (String c (fst (spanLower s)) ++ snd (spanLower s))%string
    with (String c (fst (spanLower s) ++ snd (spanLower s))).
  now f_equal.
Qed.

Lemma append_assoc (a b c : string) : ((a ++ b) ++ c)%string = (a ++ (b ++ c))%string.
Proof.
  induction a as [| x a IH]; [reflexivity |].
  change (String x ((a ++ b) ++ c) = String x (a ++ (b ++ c)))%string. now rewrite IH.
Qed.

Lemma afterDataUrlPrefix_append (subtype data : string) :
  subtype <> EmptyString ->
  allLowerAZ subtype = true ->
  afterDataUrlPrefix ("data:image/" ++ subtype ++ ";base64," ++ data) = Some data.
Proof.
  intros Hne Hlower. unfold afterDataUrlPrefix.
  rewrite afterPrefix_append.
  change (subtype ++ ";base64," ++ data)%string
    with (subtype ++ String ";"%char ("base64," ++ data))%string.
  rewrite (spanLower_append _ _ Hlower).
  destruct subtype; [contradiction |].
  change (String ";"%char ("base64," ++ data))%string with (";base64," ++ data)%string.
  now rewrite afterPrefix_append.
Qed.

(** X26.  [extractBase64Data] undoes the data-URL prefix: for every
    subtype made of the letters a to z it returns the data that follows
    the prefix. *)
Theorem extractBase64Data_round_trip (subtype data : string) :
  subtype <> EmptyString ->
  allLowerAZ subtype = true ->
  extractBase64Data ("data:image/" ++ subtype ++ ";base64," ++ data) = data.
Proof.
  intros Hne Hlower. unfold extractBase64Data.
  now rewrite afterDataUrlPrefix_append.
Qed.

Lemma extractBase64Data_round_trip_witness :
  extractBase64Data "data:image/png;base64,iVBORw0KGgo=" = "iVBORw0KGgo="%string.
Proof.
  apply (extractBase64Data_round_trip "png" "iVBORw0KGgo="); [discriminate | reflexivity].
Defined.

(** X27.  [extractBase64Data] returns a suffix of its argument: it removes
    nothing, or a prefix that starts with [data:image/]. *)
Theorem extractBase64Data_is_a_suffix (dataUrl : string) :
  exists removed,
    dataUrl = (removed ++ extractBase64Data dataUrl)%string
    /\ (removed = EmptyString \/ String.prefix "data:image/" removed = true).
Proof.
  unfold extractBase64Data, afterDataUrlPrefix.
  destruct (afterPrefix "data:image/" dataUrl) as [afterSlash |] eqn:E1;
    [| exists EmptyString; split; [reflexivity | now left]].
  pose proof (spanLower_split afterSlash) as Hspan.
  destruct (spanLower afterSlash) as [subtype afterSubtype]. cbn [fst snd] in Hspan.
  destruct subtype as [| c subtype]; [exists EmptyString; split; [reflexivity | now left] |].
  destruct (afterPrefix ";base64," afterSubtype) as [data |] eqn:E2;
    [| exists EmptyString; split; [reflexivity | now left]].
  apply afterPrefix_split in E1, E2. subst afterSubtype afterSlash.
  exists ("data:image/" ++ String c subtype ++ ";base64,")%string. split.
  - rewrite E1. now rewrite !append_assoc.
  - right. reflexivity.
Qed.

Lemma prefix_split (p s : string) :
  String.prefix p s = true -> exists rest, s = (p ++ rest)%string.
Proof.
  revert s. induction p as [| c p IH]; intros s H; [now exists s |].
  destruct s as [| d s]; [discriminate |]. cbn in H.
  destruct (ascii_dec c d) as [-> | _]; [| discriminate].
  destruct (IH s H) as [rest ->]. now exists rest.
Qed.

Section Base64.

Variable MAX_FILE_SIZE : float.
Variable toFixed2 : float -> string.

(** X28.  A string that [validateBase64Image] accepts starts with the data
    URL prefix of one of the four subtypes, and [extractBase64Data]
    removes exactly that prefix from it. *)
Theorem validateBase64Image_accepted_is_stripped (base64 : string) :
  valid (validateBase64Image MAX_FILE_SIZE toFixed2 base64) = true ->
  hasImageDataPrefix base64 = true
  /\ exists subtype,
       subtype ∈ ["jpeg"; "jpg"; "png"; "webp"]%string
       /\ base64 = ("data:image/" ++ subtype ++ ";base64," ++ extractBase64Data base64)%string.
Proof.
  unfold validateBase64Image. destruct base64 as [| c rest]; [discriminate |].
  set (base64 := String c rest). cbn [valid].
  destruct (hasImageDataPrefix base64) eqn:Hprefix; [| discriminate].
  intros _. split; [reflexivity |].
  unfold hasImageDataPrefix in Hprefix. apply existsb_exists in Hprefix as (subtype & Hin & Hp).
  apply list_elem_of_In in Hin. exists subtype. split; [exact Hin |].
  apply prefix_split in Hp as [data Hdata].
  rewrite !append_assoc in Hdata. rewrite Hdata at 1. do 3 f_equal.
  unfold extractBase64Data. rewrite Hdata.
  repeat (apply elem_of_cons in Hin as [-> | Hin];
          [now rewrite afterDataUrlPrefix_append |]).
  now apply elem_of_nil in Hin.
Qed.

End Base64.

Lemma validateBase64Image_accepted_is_stripped_witness :
  hasImageDataPrefix "data:image/png;base64,iVBORw0KGgo=" = true
  /\ exists subtype,
       subtype ∈ ["jpeg"; "jpg"; "png"; "webp"]%string
       /\ "data:image/png;base64,iVBORw0KGgo="%string
          = ("data:image/" ++ subtype ++ ";base64,"
             ++ extractBase64Data "data:image/png;base64,iVBORw0KGgo=")%string.
Proof.
  exact (validateBase64Image_accepted_is_stripped tenMegabytes noDigits
           "data:image/png;base64,iVBORw0KGgo=" eq_refl).
Defined.

End ImageChecks.

(** ** Examples from the specification *)

Example convertToGrams_cups (quantity : float) :
  convertToGrams quantity "cups" = convertToGrams quantity "cup"
  /\ convertToGrams quantity " Cups " = quantity * 240.
Proof. split; reflexivity. Qed.

Example convertToGrams_zorbleflax (quantity : float) :
  convertToGrams quantity "zorbleflax" = quantity * 100.
Proof. reflexivity. Qed.

Example calculateMacroPercentages_drift :
  calculateMacroPercentages (NutritionData.mk 580 50 50 20 None None None)
  = MacroPercentages.mk 34 34 31.
Proof. reflexivity. Qed.

Example chicken_and_rice :
  let aiResult := AIAnalysisResult.mk [food "chicken"; food "rice"] 0.9 None in
  let groundTruth :=
    GroundTruth.mk [truth "grilled chicken breast"; truth "brown rice"; truth "broccoli"]
      600 12 135 3 in
  truePositives aiResult groundTruth = 2%Z
  /\ falsePositives aiResult groundTruth = 0%Z
  /\ falseNegatives aiResult groundTruth = 1%Z
  /\ precision aiResult groundTruth = 1
  /\ recall aiResult groundTruth = 2 / 3
  /\ foodDetectionAccuracy aiResult groundTruth = 2 / 3.
Proof. vm_compute. repeat split; reflexivity. Qed.

Example nothing_detected :
  let aiResult := AIAnalysisResult.mk [] 0.5 None in
  let groundTruth := GroundTruth.mk [truth "broccoli"] 200 4 45 1 in
  precision aiResult groundTruth = 0
  /\ recall aiResult groundTruth = 0
  /\ f1Score (precision aiResult groundTruth) (recall aiResult groundTruth) = 0
  /\ foodDetectionAccuracy aiResult groundTruth = 0.
Proof. vm_compute. repeat split; reflexivity. Qed.

Example aggregateMetrics_single (metrics : EvaluationMetrics.t) :
  EvaluationMetrics.overallScore (aggregateMetrics [metrics])
  = (0 + EvaluationMetrics.overallScore metrics) / 1.
Proof. reflexivity. Qed.
